(** * AI Prompt Enhancer: the interaction state machine and the request builders

    A shallow embedding of [src/types.ts], [src/services/geminiService.ts] and
    the handlers of [src/App.tsx].

    Conventions of the embedding.
    - A JavaScript string is a [string]: the UTF-8 bytes of its text.
    - A value whose static type is [any] (whatever [JSON.parse] returned, and
      the fields copied out of it) is a [JsValue]: [None] is [undefined].
    - What the outside world answers (the model's reply, the outcome of a
      [FileReader]) is an argument of the function that awaits it.
    - An [async] handler is the list of the states it commits, in order: the
      state set before the first [await], then the state set when the awaited
      call settles, computed from the former.  An event may start in any
      committed state; a call that settles after a later event has changed
      the state is outside the model. *)

From Stdlib Require Import String Ascii List Bool Arith ZArith NArith Lia.
From Stdlib Require Import DecimalString.
Import ListNotations.

Local Open Scope string_scope.
Local Open Scope list_scope.
Local Open Scope nat_scope.

Set Warnings "-register-all".

(** ** JavaScript strings *)

Module Js.

(** The double quote, which the instruction templates use freely. *)
Definition dquote : string := String (ascii_of_nat 34) EmptyString.

(** The line feed of a multi-line template literal. *)
Definition nl : string := String (ascii_of_nat 10) EmptyString.

Definition quoted (s : string) : string := dquote ++ s ++ dquote.

(** [lines] joins the lines of a template literal with line feeds. *)
Fixpoint lines (l : list string) : string :=
  match l with
  | [] => ""
  | [s] => s
  | s :: rest => s ++ nl ++ lines rest
  end.

(** [Array.prototype.join] on an array of strings. *)
Fixpoint join (sep : string) (l : list string) : string :=
  match l with
  | [] => ""
  | [s] => s
  | s :: rest => s ++ sep ++ join sep rest
  end.

(** [String(n)] for an array length. *)
Definition string_of_nat (n : nat) : string :=
  NilEmpty.string_of_uint (Nat.to_uint n).

(** [haystack.includes(needle)] on strings. *)
Fixpoint includes (needle haystack : string) : bool :=
  String.prefix needle haystack ||
  match haystack with
  | EmptyString => false
  | String _ rest => includes needle rest
  end.

(** [Array.prototype.includes] on an array of strings. *)
Fixpoint mem (x : string) (l : list string) : bool :=
  match l with
  | [] => false
  | y :: rest => String.eqb y x || mem x rest
  end.

(** *** White space

    ECMAScript's WhiteSpace and LineTerminator code points, as [trim] and
    [parseInt] strip them: U+0009..U+000D, U+0020, U+00A0, U+1680,
    U+2000..U+200A, U+2028, U+2029, U+202F, U+205F, U+3000 and U+FEFF, here by
    their UTF-8 bytes. *)

Definition ws1 (a : nat) : bool :=
  ((9 <=? a) && (a <=? 13)) || (a =? 32).

Definition ws2 (a b : nat) : bool :=
  (a =? 194) && (b =? 160).

Definition ws3 (a b c : nat) : bool :=
  ((a =? 225) && (b =? 154) && (c =? 128)) ||
  ((a =? 226) && (b =? 128) &&
     (((128 <=? c) && (c <=? 138)) || (c =? 168) || (c =? 169) || (c =? 175))) ||
  ((a =? 226) && (b =? 129) && (c =? 159)) ||
  ((a =? 227) && (b =? 128) && (c =? 128)) ||
  ((a =? 239) && (b =? 187) && (c =? 191)).

(** [s.trimStart()] *)
Fixpoint trimStart (s : string) : string :=
  match s with
  | EmptyString => s
  | String a r1 =>
      if ws1 (nat_of_ascii a) then trimStart r1 else
      match r1 with
      | EmptyString => s
      | String b r2 =>
          if ws2 (nat_of_ascii a) (nat_of_ascii b) then trimStart r2 else
          match r2 with
          | EmptyString => s
          | String c r3 =>
              if ws3 (nat_of_ascii a) (nat_of_ascii b) (nat_of_ascii c)
              then trimStart r3 else s
          end
      end
  end.

(** [s.trimEnd()]: the text is kept up to its last character that
    is followed by something other than white space. *)
Fixpoint trimEnd (s : string) : string :=
  match s with
  | EmptyString => EmptyString
  | String a r =>
      match trimStart s with
      | EmptyString => EmptyString
      | _ => String a (trimEnd r)
      end
  end.

(** [s.trim()] *)
Definition trim (s : string) : string := trimEnd (trimStart s).

(** Truthiness of a string: [!s] is [negb (truthy s)]. *)
Definition truthy (s : string) : bool :=
  match s with EmptyString => false | _ => true end.

(** *** parseInt

    The result is [None] for NaN and [Some z] for the integer read.  The
    source only compares the result with zero and tests it for NaN, which the
    rounding of a long digit string to a double does not change. *)

Definition digit_value (a : ascii) : option Z :=
  let n := nat_of_ascii a in
  if (48 <=? n) && (n <=? 57) then Some (Z.of_nat (n - 48))
  else if (97 <=? n) && (n <=? 122) then Some (Z.of_nat (n - 87))
  else if (65 <=? n) && (n <=? 90) then Some (Z.of_nat (n - 55))
  else None.

(** Reads the longest prefix of digits of radix [R]; [acc] is [None] until a
    digit has been read. *)
Fixpoint read_digits (R : Z) (acc : option Z) (s : string) : option Z :=
  match s with
  | EmptyString => acc
  | String a rest =>
      match digit_value a with
      | Some d =>
          if (d <? R)%Z
          then read_digits R (Some (match acc with Some v => v * R + d | None => d end)%Z) rest
          else acc
      | None => acc
      end
  end.

Definition strip_sign (s : string) : Z * string :=
  match s with
  | String a rest =>
      if (nat_of_ascii a =? 45) then ((-1)%Z, rest)
      else if (nat_of_ascii a =? 43) then (1%Z, rest)
      else (1%Z, s)
  | EmptyString => (1%Z, s)
  end.

Definition strip_hex_prefix (s : string) : option string :=
  match s with
  | String a (String b rest) =>
      if (nat_of_ascii a =? 48) && ((nat_of_ascii b =? 120) || (nat_of_ascii b =? 88))
      then Some rest else None
  | _ => None
  end.

(** [parseInt(s, radix)]; [radix = 0] stands for a call without a radix. *)
Definition parseInt (s : string) (radix : Z) : option Z :=
  let '(sign, S1) := strip_sign (trimStart s) in
  if (radix =? 0)%Z || (radix =? 16)%Z then
    match strip_hex_prefix S1 with
    | Some S2 => option_map (Z.mul sign) (read_digits 16 None S2)
    | None =>
        option_map (Z.mul sign)
          (read_digits (if (radix =? 0)%Z then 10 else 16)%Z None S1)
    end
  else if (radix <? 2)%Z || (36 <? radix)%Z then None
  else option_map (Z.mul sign) (read_digits radix None S1).

(** [Number.isNaN] on the result of [parseInt]. *)
Definition isNaN (n : option Z) : bool :=
  match n with None => true | Some _ => false end.

(** [n <= 0]: a comparison with NaN is false. *)
Definition le_zero (n : option Z) : bool :=
  match n with None => false | Some z => (z <=? 0)%Z end.

(** [s.length]: the number of UTF-16 code units of the text.  Of its UTF-8
    bytes, a continuation byte counts nothing, the lead byte of a four-byte
    sequence (a character outside the basic plane, a surrogate pair) counts
    two, and every other byte counts one. *)
Fixpoint utf16_length (s : string) : nat :=
  match s with
  | EmptyString => 0
  | String a rest =>
      let n := nat_of_ascii a in
      (if (128 <=? n) && (n <? 192) then 0 else if 240 <=? n then 2 else 1)
      + utf16_length rest
  end.

(** [s.split(sep)] for a one-character separator. *)
Fixpoint split_on (sep : ascii) (s : string) : list string :=
  match s with
  | EmptyString => [EmptyString]
  | String a r =>
      if Ascii.eqb a sep then EmptyString :: split_on sep r
      else match split_on sep r with
           | h :: t => String a h :: t
           | [] => [String a EmptyString]
           end
  end.

(** [Array.prototype.map] with a callback that may throw ([None]). *)
Definition map_throwing {A B : Type} (f : A -> option B) : list A -> option (list B) :=
  fix go (l : list A) : option (list B) :=
    match l with
    | [] => Some []
    | a :: rest =>
        match f a with
        | None => None
        | Some b =>
            match go rest with
            | None => None
            | Some bs => Some (b :: bs)
            end
        end
    end.

End Js.

(** ** Values of type [any]: what [JSON.parse] returns *)

Module Json.

(** A number is kept as the text JavaScript prints for it ([String(n)]), which
    decides its equality, its truthiness and its serialisation.  [JObj] lists
    the own properties of the object in their enumeration order; an object
    has each key once. *)
Inductive json : Type :=
| JNull
| JBool (b : bool)
| JNum (repr : string)
| JStr (s : string)
| JArr (items : list json)
| JObj (fields : list (string * json)).

(** [None] is [undefined]. *)
Definition JsValue : Type := option json.

Definition undefined : JsValue := None.

(** The empty array literal. *)
Definition empty_array : JsValue := Some (JArr []).

Fixpoint lookup (k : string) (fields : list (string * json)) : JsValue :=
  match fields with
  | [] => undefined
  | (k', v) :: rest => if String.eqb k' k then Some v else lookup k rest
  end.

(** [x.k] for a parsed value [x] and one of the keys the source reads ([id],
    [questionText], [options], [enhancedPrompt], [negativePrompt],
    [suggestions]): reading a property of [null] throws ([None]); a
    string, number, boolean or array has none of these properties. *)
Definition member (x : json) (k : string) : option JsValue :=
  match x with
  | JNull => None
  | JObj fields => Some (lookup k fields)
  | _ => Some undefined
  end.

(** Truthiness, as [||] and [?:] test it. *)
Definition truthy (v : JsValue) : bool :=
  match v with
  | None => false
  | Some JNull => false
  | Some (JBool b) => b
  | Some (JNum r) => negb (String.eqb r "0" || String.eqb r "NaN")
  | Some (JStr s) => Js.truthy s
  | Some (JArr _) => true
  | Some (JObj _) => true
  end.

(** [v || d] *)
Definition or_else (v d : JsValue) : JsValue :=
  if truthy v then v else d.

(** [String(x)], as a template literal applies it.  An array is its elements
    joined by commas, [null] counting as the empty text.  An object without
    an own [toString] property is ["[object Object]"]; with one (never
    callable in parsed JSON) the conversion throws ([None]). *)
Fixpoint to_text (x : json) : option string :=
  match x with
  | JNull => Some "null"
  | JBool true => Some "true"
  | JBool false => Some "false"
  | JNum r => Some r
  | JStr s => Some s
  | JArr items =>
      option_map (Js.join ",")
        (Js.map_throwing
           (fun e => match e with JNull => Some "" | _ => to_text e end) items)
  | JObj fields =>
      match lookup "toString" fields with
      | Some _ => None
      | None => Some "[object Object]"
      end
  end.

Definition text_of (v : JsValue) : option string :=
  match v with
  | None => Some "undefined"
  | Some x => to_text x
  end.

Definition hex_digit (n : nat) : ascii :=
  ascii_of_nat (if n <? 10 then 48 + n else 87 + n).

(** One character of a string inside [JSON.stringify]'s quotes. *)
Definition escape_char (a : ascii) : string :=
  let n := nat_of_ascii a in
  let bs := String (ascii_of_nat 92) EmptyString in
  if n =? 34 then bs ++ Js.dquote
  else if n =? 92 then bs ++ bs
  else if n =? 8 then bs ++ "b"
  else if n =? 9 then bs ++ "t"
  else if n =? 10 then bs ++ "n"
  else if n =? 12 then bs ++ "f"
  else if n =? 13 then bs ++ "r"
  else if n <? 32 then
    bs ++ "u00" ++ String (hex_digit (n / 16)) (String (hex_digit (n mod 16)) EmptyString)
  else String a EmptyString.

Fixpoint escape (s : string) : string :=
  match s with
  | EmptyString => EmptyString
  | String a r => escape_char a ++ escape r
  end.

Definition quote (s : string) : string := Js.quoted (escape s).

(** [JSON.stringify(x)] *)
Fixpoint stringify (x : json) : string :=
  match x with
  | JNull => "null"
  | JBool true => "true"
  | JBool false => "false"
  | JNum r =>
      if String.eqb r "Infinity" || String.eqb r "-Infinity" || String.eqb r "NaN"
      then "null" else r
  | JStr s => quote s
  | JArr items => "[" ++ Js.join "," (map stringify items) ++ "]"
  | JObj fields =>
      "{" ++ Js.join ","
               (map (fun kv => (quote (fst kv) ++ ":" ++ stringify (snd kv))%string) fields)
          ++ "}"
  end.

End Json.

Import Json.

(** ** [src/types.ts] *)

Inductive AppState : Type :=
| INITIAL
| GENERATING_DESCRIPTION
| GENERATING_QUESTIONS
| ASKING_QUESTIONS
| GENERATING_ENHANCEMENT
| SHOWING_RESULTS
| ERROR
| GENERATING_MAGIC_PROMPT
| GENERATING_COPY_PROMPT
| GENERATING_STYLE_INFLUENCE_PROMPT
| GENERATING_REFINEMENT.

Inductive OutputType : Type := RASTER_PROMPT.

(** [id], [questionText] and [options] are copied from the parsed reply
    unchecked, so they hold whatever the reply held; [answer] and
    [selectedOptions] only ever receive strings. *)
Record QuestionAnswer : Type := mkQuestionAnswer {
  id : JsValue;
  questionText : JsValue;
  fullQuestionPrompt : string;
  answer : string;
  options : JsValue;
  selectedOptions : list string
}.

Record EnhancedPromptResult : Type := mkEnhancedPromptResult {
  enhancedPrompt : JsValue;
  negativePrompt : JsValue;
  suggestions : JsValue;
  outputTypeUsed : OutputType
}.

(** [base64] is element 1 of the data URL split at its commas: [None]
    ([undefined]) if the URL had no comma. *)
Record ReferenceImage : Type := mkReferenceImage {
  base64 : option string;
  mimeType : string
}.

(** ** [src/services/geminiService.ts] *)

Local Open Scope string_scope.

(** One segment of a request: [{ text }] or [{ inlineData: { mimeType, data } }]. *)
Inductive Part : Type :=
| TextPart (text : string)
| InlineData (mime : string) (data : option string).

(** What [model.generateContent] is called with: a bare prompt or an array
    of parts. *)
Inductive Request : Type :=
| PromptRequest (prompt : string)
| PartsRequest (parts : list Part).

(** What the awaited call brings back: it throws, or it yields a text,
    given with what [JSON.parse] makes of that text ([None]: a SyntaxError). *)
Inductive ModelReply : Type :=
| CallThrows
| ReplyText (text : string) (parsed : option json).

(** A settled promise. *)
Inductive Promise (A : Type) : Type :=
| Resolved (value : A)
| Rejected (message : string).

Arguments Resolved {A} value.
Arguments Rejected {A} message.

(** One run of an operation: the request it made, if it got as far as the
    call, and how its promise settled. *)
Record Call (A : Type) : Type := mkCall {
  request : option Request;
  settled : Promise A
}.

Arguments mkCall {A} request settled.
Arguments request {A} c.
Arguments settled {A} c.

(** [try { ... JSON.parse(response) ... } catch { throw new Error(message) }]:
    [body] is run on the parsed reply and may itself throw ([None]). *)
Definition try_parsed {A : Type} (message : string) (reply : ModelReply)
    (body : json -> option A) : Promise A :=
  match reply with
  | CallThrows => Rejected message
  | ReplyText _ None => Rejected message
  | ReplyText _ (Some data) =>
      match body data with
      | Some a => Resolved a
      | None => Rejected message
      end
  end.

(** [parts.push({ inlineData: ... })] *)
Definition push_image (parts : list Part) (image : ReferenceImage) : list Part :=
  (parts ++ [InlineData (mimeType image) (base64 image)])%list.

(** [if (subjectImage) { parts.push(...) }] *)
Definition push_image_if (parts : list Part) (image : option ReferenceImage) : list Part :=
  match image with
  | Some im => push_image parts im
  | None => parts
  end.

(** The object literal every result-shaped operation returns. *)
Definition result_of (data : json) : option EnhancedPromptResult :=
  match member data "enhancedPrompt", member data "negativePrompt", member data "suggestions" with
  | Some e, Some n, Some s =>
      Some {| enhancedPrompt := e;
              negativePrompt := n;
              suggestions := or_else s empty_array;
              outputTypeUsed := RASTER_PROMPT |}
  | _, _, _ => None
  end.

(** The JSON shape quoted at the end of the result-shaped instructions. *)
Definition result_shape (sample : string) : list string :=
  [ "Return as JSON:";
    "{";
    "  " ++ Js.quoted "enhancedPrompt" ++ ": " ++ Js.quoted sample ++ ",";
    "  " ++ Js.quoted "negativePrompt" ++ ": " ++ Js.quoted "negative prompt here" ++ ",";
    "  " ++ Js.quoted "suggestions" ++ ": [" ++ Js.quoted "suggestion 1" ++ ", "
         ++ Js.quoted "suggestion 2" ++ ", ...]";
    "}" ].

(** *** generateQuestions *)

Definition sample_options : list string :=
  [ "Fotorealistyczny"; "Malarstwo olejne"; "Akwarela"; "Cyfrowy"; "Szkic ołówkiem";
    "Pop art"; "Surrealizm"; "Impresjonizm"; "Minimalistyczny"; "Abstrakcyjny" ].

Definition generateQuestions_prompt (basicPrompt : string) : string :=
  Js.lines
    [ "Based on this basic image prompt idea: " ++ Js.quoted basicPrompt;
      "";
      "Generate exactly 11 questions in Polish to help enhance this prompt. The first question should always be about artistic style. Each question should have 10 relevant options.";
      "";
      "Return a JSON array with this exact structure:";
      "[";
      "  {";
      "    " ++ Js.quoted "id" ++ ": " ++ Js.quoted "q1" ++ ",";
      "    " ++ Js.quoted "questionText" ++ ": " ++ Js.quoted "Jaki styl artystyczny preferujesz?" ++ ",";
      "    " ++ Js.quoted "options" ++ ": [" ++ Js.join ", " (map Js.quoted sample_options) ++ "]";
      "  }";
      "]";
      "";
      "Make sure all questions and options are in Polish. Focus on aspects like style, mood, lighting, composition, colors, details, etc." ].

(** The callback of [questionsData.map]. *)
Definition question_of (q : json) : option QuestionAnswer :=
  match member q "id", member q "questionText", member q "options" with
  | Some i, Some t, Some o =>
      Some {| id := i;
              questionText := t;
              fullQuestionPrompt := stringify q;
              answer := "";
              options := or_else o empty_array;
              selectedOptions := [] |}
  | _, _, _ => None
  end.

(** [questionsData.map(...)]: only an array has a [map] method. *)
Definition questions_of (questionsData : json) : option (list QuestionAnswer) :=
  match questionsData with
  | JArr items => Js.map_throwing question_of items
  | _ => None
  end.

Definition generateQuestions (basicPrompt : string) (reply : ModelReply)
    : Call (list QuestionAnswer) :=
  mkCall (Some (PromptRequest (generateQuestions_prompt basicPrompt)))
         (try_parsed "Failed to generate questions" reply questions_of).

(** *** generateEnhancedPrompt

    Interpolating [qa.questionText] can throw (see [to_text]); then the
    instruction is never built and nothing is sent. *)

Definition enhanced_answer_text (qa : QuestionAnswer) : option string :=
  let selected :=
    if (0 <? List.length (selectedOptions qa))%nat
    then Js.join ", " (selectedOptions qa) else "None selected" in
  let notes := if Js.truthy (answer qa) then "Notes: " ++ answer qa else "" in
  match text_of (questionText qa) with
  | Some question => Some (question ++ Js.nl ++ "Selected: " ++ selected ++ Js.nl ++ notes)
  | None => None
  end.

Definition generateEnhancedPrompt_prompt (basicPrompt : string)
    (questionAnswers : list QuestionAnswer) : option string :=
  match Js.map_throwing enhanced_answer_text questionAnswers with
  | None => None
  | Some texts =>
      let answersText := Js.join (Js.nl ++ Js.nl) texts in
      Some (Js.lines
        (List.app [ "Create a high-quality English image generation prompt based on:";
           "";
           "Basic idea: " ++ basicPrompt;
           "";
           "User preferences:";
           answersText;
           "";
           "Generate:";
           "1. Enhanced main prompt (detailed, professional, in English)";
           "2. Negative prompt (what to avoid, in English)";
           "3. 3-5 suggestions for further improvements (in English)";
           "" ] (result_shape "detailed prompt here")))
  end.

Definition generateEnhancedPrompt_parts (prompt : string)
    (subjectImage : option ReferenceImage) : list Part :=
  let parts := [TextPart prompt] in
  push_image_if parts subjectImage.

Definition generateEnhancedPrompt (basicPrompt : string)
    (questionAnswers : list QuestionAnswer) (subjectImage : option ReferenceImage)
    (reply : ModelReply) : Call EnhancedPromptResult :=
  match generateEnhancedPrompt_prompt basicPrompt questionAnswers with
  | None => mkCall None (Rejected "Failed to generate enhanced prompt")
  | Some prompt =>
      mkCall (Some (PartsRequest (generateEnhancedPrompt_parts prompt subjectImage)))
             (try_parsed "Failed to generate enhanced prompt" reply result_of)
  end.

(** *** generateImageDescription *)

Definition generateImageDescription_prompt : string :=
  Js.lines
    [ "Analyze this image and create a detailed English description that could be used as a base for an image generation prompt. Focus on:";
      "- Main subject/objects";
      "- Style and artistic elements";
      "- Colors and lighting";
      "- Composition and mood";
      "- Important details";
      "";
      "Provide a concise but descriptive prompt in English." ].

Definition generateImageDescription_parts (image : ReferenceImage) : list Part :=
  [ TextPart generateImageDescription_prompt;
    InlineData (mimeType image) (base64 image) ].

Definition generateImageDescription (image : ReferenceImage) (reply : ModelReply)
    : Call string :=
  mkCall (Some (PartsRequest (generateImageDescription_parts image)))
         match reply with
         | CallThrows => Rejected "Failed to generate image description"
         | ReplyText text _ => Resolved text
         end.

(** *** generateMagicPrompt *)

Definition magic_dimensionsText (aspectRatio customWidth customHeight : string) : string :=
  if negb (String.eqb aspectRatio "auto") then
    if String.eqb aspectRatio "custom"
    then "Dimensions: " ++ customWidth ++ "x" ++ customHeight ++ "px"
    else "Aspect ratio: " ++ aspectRatio
  else "".

Definition generateMagicPrompt_prompt
    (basicPrompt aspectRatio customWidth customHeight : string) : string :=
  let dimensionsText := magic_dimensionsText aspectRatio customWidth customHeight in
  Js.lines
    (List.app [ "Create a magical, highly detailed English image generation prompt based on: "
         ++ Js.quoted basicPrompt;
       "";
       dimensionsText;
       "";
       "Transform this basic idea into a stunning, professional-quality prompt with:";
       "- Rich artistic details";
       "- Professional photography/art terminology";
       "- Specific lighting and mood descriptions";
       "- High-quality rendering specifications";
       "";
       "Also provide:";
       "- Negative prompt (what to avoid)";
       "- 3-5 creative suggestions for variations";
       "" ] (result_shape "magical detailed prompt here")).

Definition generateMagicPrompt_parts
    (basicPrompt aspectRatio customWidth customHeight : string)
    (subjectImage : option ReferenceImage) : list Part :=
  let parts :=
    [TextPart (generateMagicPrompt_prompt basicPrompt aspectRatio customWidth customHeight)] in
  push_image_if parts subjectImage.

Definition generateMagicPrompt
    (basicPrompt aspectRatio customWidth customHeight : string)
    (subjectImage : option ReferenceImage) (reply : ModelReply)
    : Call EnhancedPromptResult :=
  mkCall
    (Some (PartsRequest
       (generateMagicPrompt_parts basicPrompt aspectRatio customWidth customHeight
          subjectImage)))
    (try_parsed "Failed to generate magic prompt" reply result_of).

(** *** generateCopyImagePrompt *)

Definition generateCopyImagePrompt_prompt : string :=
  Js.lines
    (List.app [ "Analyze this image in extreme detail and create a comprehensive English prompt that would recreate this image as closely as possible. Include:";
       "";
       "- Exact description of all subjects/objects";
       "- Precise artistic style and technique";
       "- Detailed lighting setup and shadows";
       "- Color palette and saturation";
       "- Composition and framing";
       "- Texture and material details";
       "- Background elements";
       "- Camera settings if photographic";
       "";
       "Also provide:";
       "- Negative prompt to avoid unwanted elements";
       "- 3-5 suggestions for fine-tuning";
       "" ] (result_shape "extremely detailed recreation prompt here")).

Definition generateCopyImagePrompt_parts (image : ReferenceImage) : list Part :=
  [ TextPart generateCopyImagePrompt_prompt;
    InlineData (mimeType image) (base64 image) ].

Definition generateCopyImagePrompt (image : ReferenceImage) (reply : ModelReply)
    : Call EnhancedPromptResult :=
  mkCall (Some (PartsRequest (generateCopyImagePrompt_parts image)))
         (try_parsed "Failed to generate copy image prompt" reply result_of).

(** *** generateStyleInfluencePrompt

    [aspectRatio], [customWidth] and [customHeight] are optional parameters:
    [None] is an omitted argument. *)

Definition truthy_arg (a : option string) : bool :=
  match a with
  | Some s => Js.truthy s
  | None => false
  end.

Definition arg_is (a : option string) (s : string) : bool :=
  match a with
  | Some s' => String.eqb s' s
  | None => false
  end.

Definition arg_text (a : option string) : string :=
  match a with
  | Some s => s
  | None => "undefined"
  end.

Definition style_dimensionsText (aspectRatio customWidth customHeight : option string)
    : string :=
  if truthy_arg aspectRatio && negb (arg_is aspectRatio "auto") then
    if arg_is aspectRatio "custom" && truthy_arg customWidth && truthy_arg customHeight
    then "Dimensions: " ++ arg_text customWidth ++ "x" ++ arg_text customHeight ++ "px"
    else "Aspect ratio: " ++ arg_text aspectRatio
  else "".

Definition generateStyleInfluencePrompt_prompt (basicPrompt : string)
    (aspectRatio customWidth customHeight : option string) : string :=
  let dimensionsText := style_dimensionsText aspectRatio customWidth customHeight in
  Js.lines
    (List.app [ "Create an English image generation prompt that combines:";
       "";
       "Subject/Theme: " ++ basicPrompt;
       dimensionsText;
       "";
       "Analyze the style reference image and apply its artistic characteristics to the subject. Focus on:";
       "- Artistic technique and medium";
       "- Color palette and mood";
       "- Lighting style";
       "- Brushwork or rendering technique";
       "- Overall aesthetic approach";
       "";
       "Create a detailed prompt that merges the subject with the reference style.";
       "";
       "Also provide:";
       "- Negative prompt";
       "- 3-5 creative variations";
       "" ] (result_shape "style-influenced prompt here")).

Definition generateStyleInfluencePrompt_parts (basicPrompt : string)
    (styleImage : ReferenceImage) (subjectImage : option ReferenceImage)
    (aspectRatio customWidth customHeight : option string) : list Part :=
  let parts :=
    [TextPart (generateStyleInfluencePrompt_prompt basicPrompt
                 aspectRatio customWidth customHeight)] in
  let parts := push_image parts styleImage in
  push_image_if parts subjectImage.

Definition generateStyleInfluencePrompt (basicPrompt : string)
    (styleImage : ReferenceImage) (subjectImage : option ReferenceImage)
    (aspectRatio customWidth customHeight : option string) (reply : ModelReply)
    : Call EnhancedPromptResult :=
  mkCall
    (Some (PartsRequest
       (generateStyleInfluencePrompt_parts basicPrompt styleImage subjectImage
          aspectRatio customWidth customHeight)))
    (try_parsed "Failed to generate style influence prompt" reply result_of).

(** *** refineEditedPrompt *)

Definition refine_answer_text (qa : QuestionAnswer) : option string :=
  let selected :=
    if (0 <? List.length (selectedOptions qa))%nat
    then Js.join ", " (selectedOptions qa) else "None" in
  let notes := if Js.truthy (answer qa) then "Notes: " ++ answer qa else "" in
  match text_of (questionText qa) with
  | Some question => Some (question ++ ": " ++ selected ++ " " ++ notes)
  | None => None
  end.

Definition refineEditedPrompt_prompt (editedPrompt originalBasicPrompt : string)
    (questionAnswers : list QuestionAnswer) : option string :=
  match Js.map_throwing refine_answer_text questionAnswers with
  | None => None
  | Some texts =>
      let answersContext := Js.join Js.nl texts in
      Some (Js.lines
        (List.app [ "Refine and improve this edited prompt while maintaining the user's intent:";
           "";
           "Edited Prompt: " ++ editedPrompt;
           "";
           "Original Context:";
           "- Basic idea: " ++ originalBasicPrompt;
           "- User preferences: " ++ answersContext;
           "";
           "Improve the edited prompt by:";
           "- Fixing any grammar or clarity issues";
           "- Enhancing technical terminology";
           "- Maintaining the user's creative vision";
           "- Adding professional quality specifications";
           "";
           "Provide:";
           "- Refined enhanced prompt";
           "- Updated negative prompt";
           "- 3-5 suggestions for further refinement";
           "" ] (result_shape "refined prompt here")))
  end.

Definition refineEditedPrompt_parts (prompt : string)
    (subjectImage : option ReferenceImage) : list Part :=
  let parts := [TextPart prompt] in
  push_image_if parts subjectImage.

Definition refineEditedPrompt (editedPrompt originalBasicPrompt : string)
    (questionAnswers : list QuestionAnswer) (subjectImage : option ReferenceImage)
    (reply : ModelReply) : Call EnhancedPromptResult :=
  match refineEditedPrompt_prompt editedPrompt originalBasicPrompt questionAnswers with
  | None => mkCall None (Rejected "Failed to refine edited prompt")
  | Some prompt =>
      mkCall (Some (PartsRequest (refineEditedPrompt_parts prompt subjectImage)))
             (try_parsed "Failed to refine edited prompt" reply result_of)
  end.

(** ** [src/App.tsx]: the state *)

(** What the file picker hands over: the file's name, its declared MIME type
    and its size in bytes. *)
Record File : Type := mkFile {
  name : string;
  type : string;
  size : N
}.

(** The [useState] cells of the component.  [None] is [null].  The edit
    draft is seeded from [enhancedResult.enhancedPrompt], which is copied from
    the reply unchecked, so it is a [JsValue]. *)
Record App : Type := mkApp {
  appState : AppState;
  basicPrompt : string;
  questionAnswers : list QuestionAnswer;
  enhancedResult : option EnhancedPromptResult;
  error : option string;
  apiKeyExists : bool;
  copiedEnhancedPrompt : bool;
  copiedNegativePrompt : bool;
  copiedSuggestionIndex : option nat;
  subjectReferenceImageFile : option File;
  subjectReferenceImagePreview : option string;
  styleReferenceImageFile : option File;
  styleReferenceImagePreview : option string;
  outputAspectRatio : string;
  outputCustomWidth : string;
  outputCustomHeight : string;
  isEditingEnhancedPrompt : bool;
  editedEnhancedPromptText : JsValue
}.

(** The state setters: each replaces one cell and keeps the others. *)

Definition setAppState (v : AppState) (s : App) : App :=
  {| appState := v; basicPrompt := basicPrompt s; questionAnswers := questionAnswers s;
     enhancedResult := enhancedResult s; error := error s;
     apiKeyExists := apiKeyExists s; copiedEnhancedPrompt := copiedEnhancedPrompt s;
     copiedNegativePrompt := copiedNegativePrompt s;
     copiedSuggestionIndex := copiedSuggestionIndex s;
     subjectReferenceImageFile := subjectReferenceImageFile s;
     subjectReferenceImagePreview := subjectReferenceImagePreview s;
     styleReferenceImageFile := styleReferenceImageFile s;
     styleReferenceImagePreview := styleReferenceImagePreview s;
     outputAspectRatio := outputAspectRatio s; outputCustomWidth := outputCustomWidth s;
     outputCustomHeight := outputCustomHeight s;
     isEditingEnhancedPrompt := isEditingEnhancedPrompt s;
     editedEnhancedPromptText := editedEnhancedPromptText s |}.

Definition setBasicPrompt (v : string) (s : App) : App :=
  {| appState := appState s; basicPrompt := v; questionAnswers := questionAnswers s;
     enhancedResult := enhancedResult s; error := error s;
     apiKeyExists := apiKeyExists s; copiedEnhancedPrompt := copiedEnhancedPrompt s;
     copiedNegativePrompt := copiedNegativePrompt s;
     copiedSuggestionIndex := copiedSuggestionIndex s;
     subjectReferenceImageFile := subjectReferenceImageFile s;
     subjectReferenceImagePreview := subjectReferenceImagePreview s;
     styleReferenceImageFile := styleReferenceImageFile s;
     styleReferenceImagePreview := styleReferenceImagePreview s;
     outputAspectRatio := outputAspectRatio s; outputCustomWidth := outputCustomWidth s;
     outputCustomHeight := outputCustomHeight s;
     isEditingEnhancedPrompt := isEditingEnhancedPrompt s;
     editedEnhancedPromptText := editedEnhancedPromptText s |}.

Definition setQuestionAnswers (v : list QuestionAnswer) (s : App) : App :=
  {| appState := appState s; basicPrompt := basicPrompt s; questionAnswers := v;
     enhancedResult := enhancedResult s; error := error s;
     apiKeyExists := apiKeyExists s; copiedEnhancedPrompt := copiedEnhancedPrompt s;
     copiedNegativePrompt := copiedNegativePrompt s;
     copiedSuggestionIndex := copiedSuggestionIndex s;
     subjectReferenceImageFile := subjectReferenceImageFile s;
     subjectReferenceImagePreview := subjectReferenceImagePreview s;
     styleReferenceImageFile := styleReferenceImageFile s;
     styleReferenceImagePreview := styleReferenceImagePreview s;
     outputAspectRatio := outputAspectRatio s; outputCustomWidth := outputCustomWidth s;
     outputCustomHeight := outputCustomHeight s;
     isEditingEnhancedPrompt := isEditingEnhancedPrompt s;
     editedEnhancedPromptText := editedEnhancedPromptText s |}.

Definition setEnhancedResult (v : option EnhancedPromptResult) (s : App) : App :=
  {| appState := appState s; basicPrompt := basicPrompt s;
     questionAnswers := questionAnswers s; enhancedResult := v; error := error s;
     apiKeyExists := apiKeyExists s; copiedEnhancedPrompt := copiedEnhancedPrompt s;
     copiedNegativePrompt := copiedNegativePrompt s;
     copiedSuggestionIndex := copiedSuggestionIndex s;
     subjectReferenceImageFile := subjectReferenceImageFile s;
     subjectReferenceImagePreview := subjectReferenceImagePreview s;
     styleReferenceImageFile := styleReferenceImageFile s;
     styleReferenceImagePreview := styleReferenceImagePreview s;
     outputAspectRatio := outputAspectRatio s; outputCustomWidth := outputCustomWidth s;
     outputCustomHeight := outputCustomHeight s;
     isEditingEnhancedPrompt := isEditingEnhancedPrompt s;
     editedEnhancedPromptText := editedEnhancedPromptText s |}.

Definition setError (v : option string) (s : App) : App :=
  {| appState := appState s; basicPrompt := basicPrompt s;
     questionAnswers := questionAnswers s; enhancedResult := enhancedResult s;
     error := v; apiKeyExists := apiKeyExists s;
     copiedEnhancedPrompt := copiedEnhancedPrompt s;
     copiedNegativePrompt := copiedNegativePrompt s;
     copiedSuggestionIndex := copiedSuggestionIndex s;
     subjectReferenceImageFile := subjectReferenceImageFile s;
     subjectReferenceImagePreview := subjectReferenceImagePreview s;
     styleReferenceImageFile := styleReferenceImageFile s;
     styleReferenceImagePreview := styleReferenceImagePreview s;
     outputAspectRatio := outputAspectRatio s; outputCustomWidth := outputCustomWidth s;
     outputCustomHeight := outputCustomHeight s;
     isEditingEnhancedPrompt := isEditingEnhancedPrompt s;
     editedEnhancedPromptText := editedEnhancedPromptText s |}.

Definition setApiKeyExists (v : bool) (s : App) : App :=
  {| appState := appState s; basicPrompt := basicPrompt s;
     questionAnswers := questionAnswers s; enhancedResult := enhancedResult s;
     error := error s; apiKeyExists := v;
     copiedEnhancedPrompt := copiedEnhancedPrompt s;
     copiedNegativePrompt := copiedNegativePrompt s;
     copiedSuggestionIndex := copiedSuggestionIndex s;
     subjectReferenceImageFile := subjectReferenceImageFile s;
     subjectReferenceImagePreview := subjectReferenceImagePreview s;
     styleReferenceImageFile := styleReferenceImageFile s;
     styleReferenceImagePreview := styleReferenceImagePreview s;
     outputAspectRatio := outputAspectRatio s; outputCustomWidth := outputCustomWidth s;
     outputCustomHeight := outputCustomHeight s;
     isEditingEnhancedPrompt := isEditingEnhancedPrompt s;
     editedEnhancedPromptText := editedEnhancedPromptText s |}.

Definition setCopiedEnhancedPrompt (v : bool) (s : App) : App :=
  {| appState := appState s; basicPrompt := basicPrompt s;
     questionAnswers := questionAnswers s; enhancedResult := enhancedResult s;
     error := error s; apiKeyExists := apiKeyExists s; copiedEnhancedPrompt := v;
     copiedNegativePrompt := copiedNegativePrompt s;
     copiedSuggestionIndex := copiedSuggestionIndex s;
     subjectReferenceImageFile := subjectReferenceImageFile s;
     subjectReferenceImagePreview := subjectReferenceImagePreview s;
     styleReferenceImageFile := styleReferenceImageFile s;
     styleReferenceImagePreview := styleReferenceImagePreview s;
     outputAspectRatio := outputAspectRatio s; outputCustomWidth := outputCustomWidth s;
     outputCustomHeight := outputCustomHeight s;
     isEditingEnhancedPrompt := isEditingEnhancedPrompt s;
     editedEnhancedPromptText := editedEnhancedPromptText s |}.

Definition setCopiedNegativePrompt (v : bool) (s : App) : App :=
  {| appState := appState s; basicPrompt := basicPrompt s;
     questionAnswers := questionAnswers s; enhancedResult := enhancedResult s;
     error := error s; apiKeyExists := apiKeyExists s;
     copiedEnhancedPrompt := copiedEnhancedPrompt s; copiedNegativePrompt := v;
     copiedSuggestionIndex := copiedSuggestionIndex s;
     subjectReferenceImageFile := subjectReferenceImageFile s;
     subjectReferenceImagePreview := subjectReferenceImagePreview s;
     styleReferenceImageFile := styleReferenceImageFile s;
     styleReferenceImagePreview := styleReferenceImagePreview s;
     outputAspectRatio := outputAspectRatio s; outputCustomWidth := outputCustomWidth s;
     outputCustomHeight := outputCustomHeight s;
     isEditingEnhancedPrompt := isEditingEnhancedPrompt s;
     editedEnhancedPromptText := editedEnhancedPromptText s |}.

Definition setCopiedSuggestionIndex (v : option nat) (s : App) : App :=
  {| appState := appState s; basicPrompt := basicPrompt s;
     questionAnswers := questionAnswers s; enhancedResult := enhancedResult s;
     error := error s; apiKeyExists := apiKeyExists s;
     copiedEnhancedPrompt := copiedEnhancedPrompt s;
     copiedNegativePrompt := copiedNegativePrompt s; copiedSuggestionIndex := v;
     subjectReferenceImageFile := subjectReferenceImageFile s;
     subjectReferenceImagePreview := subjectReferenceImagePreview s;
     styleReferenceImageFile := styleReferenceImageFile s;
     styleReferenceImagePreview := styleReferenceImagePreview s;
     outputAspectRatio := outputAspectRatio s; outputCustomWidth := outputCustomWidth s;
     outputCustomHeight := outputCustomHeight s;
     isEditingEnhancedPrompt := isEditingEnhancedPrompt s;
     editedEnhancedPromptText := editedEnhancedPromptText s |}.

Definition setSubjectReferenceImageFile (v : option File) (s : App) : App :=
  {| appState := appState s; basicPrompt := basicPrompt s;
     questionAnswers := questionAnswers s; enhancedResult := enhancedResult s;
     error := error s; apiKeyExists := apiKeyExists s;
     copiedEnhancedPrompt := copiedEnhancedPrompt s;
     copiedNegativePrompt := copiedNegativePrompt s;
     copiedSuggestionIndex := copiedSuggestionIndex s; subjectReferenceImageFile := v;
     subjectReferenceImagePreview := subjectReferenceImagePreview s;
     styleReferenceImageFile := styleReferenceImageFile s;
     styleReferenceImagePreview := styleReferenceImagePreview s;
     outputAspectRatio := outputAspectRatio s; outputCustomWidth := outputCustomWidth s;
     outputCustomHeight := outputCustomHeight s;
     isEditingEnhancedPrompt := isEditingEnhancedPrompt s;
     editedEnhancedPromptText := editedEnhancedPromptText s |}.

Definition setSubjectReferenceImagePreview (v : option string) (s : App) : App :=
  {| appState := appState s; basicPrompt := basicPrompt s;
     questionAnswers := questionAnswers s; enhancedResult := enhancedResult s;
     error := error s; apiKeyExists := apiKeyExists s;
     copiedEnhancedPrompt := copiedEnhancedPrompt s;
     copiedNegativePrompt := copiedNegativePrompt s;
     copiedSuggestionIndex := copiedSuggestionIndex s;
     subjectReferenceImageFile := subjectReferenceImageFile s;
     subjectReferenceImagePreview := v;
     styleReferenceImageFile := styleReferenceImageFile s;
     styleReferenceImagePreview := styleReferenceImagePreview s;
     outputAspectRatio := outputAspectRatio s; outputCustomWidth := outputCustomWidth s;
     outputCustomHeight := outputCustomHeight s;
     isEditingEnhancedPrompt := isEditingEnhancedPrompt s;
     editedEnhancedPromptText := editedEnhancedPromptText s |}.

Definition setStyleReferenceImageFile (v : option File) (s : App) : App :=
  {| appState := appState s; basicPrompt := basicPrompt s;
     questionAnswers := questionAnswers s; enhancedResult := enhancedResult s;
     error := error s; apiKeyExists := apiKeyExists s;
     copiedEnhancedPrompt := copiedEnhancedPrompt s;
     copiedNegativePrompt := copiedNegativePrompt s;
     copiedSuggestionIndex := copiedSuggestionIndex s;
     subjectReferenceImageFile := subjectReferenceImageFile s;
     subjectReferenceImagePreview := subjectReferenceImagePreview s;
     styleReferenceImageFile := v;
     styleReferenceImagePreview := styleReferenceImagePreview s;
     outputAspectRatio := outputAspectRatio s; outputCustomWidth := outputCustomWidth s;
     outputCustomHeight := outputCustomHeight s;
     isEditingEnhancedPrompt := isEditingEnhancedPrompt s;
     editedEnhancedPromptText := editedEnhancedPromptText s |}.

Definition setStyleReferenceImagePreview (v : option string) (s : App) : App :=
  {| appState := appState s; basicPrompt := basicPrompt s;
     questionAnswers := questionAnswers s; enhancedResult := enhancedResult s;
     error := error s; apiKeyExists := apiKeyExists s;
     copiedEnhancedPrompt := copiedEnhancedPrompt s;
     copiedNegativePrompt := copiedNegativePrompt s;
     copiedSuggestionIndex := copiedSuggestionIndex s;
     subjectReferenceImageFile := subjectReferenceImageFile s;
     subjectReferenceImagePreview := subjectReferenceImagePreview s;
     styleReferenceImageFile := styleReferenceImageFile s;
     styleReferenceImagePreview := v; outputAspectRatio := outputAspectRatio s;
     outputCustomWidth := outputCustomWidth s;
     outputCustomHeight := outputCustomHeight s;
     isEditingEnhancedPrompt := isEditingEnhancedPrompt s;
     editedEnhancedPromptText := editedEnhancedPromptText s |}.

Definition setOutputAspectRatio (v : string) (s : App) : App :=
  {| appState := appState s; basicPrompt := basicPrompt s;
     questionAnswers := questionAnswers s; enhancedResult := enhancedResult s;
     error := error s; apiKeyExists := apiKeyExists s;
     copiedEnhancedPrompt := copiedEnhancedPrompt s;
     copiedNegativePrompt := copiedNegativePrompt s;
     copiedSuggestionIndex := copiedSuggestionIndex s;
     subjectReferenceImageFile := subjectReferenceImageFile s;
     subjectReferenceImagePreview := subjectReferenceImagePreview s;
     styleReferenceImageFile := styleReferenceImageFile s;
     styleReferenceImagePreview := styleReferenceImagePreview s; outputAspectRatio := v;
     outputCustomWidth := outputCustomWidth s;
     outputCustomHeight := outputCustomHeight s;
     isEditingEnhancedPrompt := isEditingEnhancedPrompt s;
     editedEnhancedPromptText := editedEnhancedPromptText s |}.

Definition setOutputCustomWidth (v : string) (s : App) : App :=
  {| appState := appState s; basicPrompt := basicPrompt s;
     questionAnswers := questionAnswers s; enhancedResult := enhancedResult s;
     error := error s; apiKeyExists := apiKeyExists s;
     copiedEnhancedPrompt := copiedEnhancedPrompt s;
     copiedNegativePrompt := copiedNegativePrompt s;
     copiedSuggestionIndex := copiedSuggestionIndex s;
     subjectReferenceImageFile := subjectReferenceImageFile s;
     subjectReferenceImagePreview := subjectReferenceImagePreview s;
     styleReferenceImageFile := styleReferenceImageFile s;
     styleReferenceImagePreview := styleReferenceImagePreview s;
     outputAspectRatio := outputAspectRatio s; outputCustomWidth := v;
     outputCustomHeight := outputCustomHeight s;
     isEditingEnhancedPrompt := isEditingEnhancedPrompt s;
     editedEnhancedPromptText := editedEnhancedPromptText s |}.

Definition setOutputCustomHeight (v : string) (s : App) : App :=
  {| appState := appState s; basicPrompt := basicPrompt s;
     questionAnswers := questionAnswers s; enhancedResult := enhancedResult s;
     error := error s; apiKeyExists := apiKeyExists s;
     copiedEnhancedPrompt := copiedEnhancedPrompt s;
     copiedNegativePrompt := copiedNegativePrompt s;
     copiedSuggestionIndex := copiedSuggestionIndex s;
     subjectReferenceImageFile := subjectReferenceImageFile s;
     subjectReferenceImagePreview := subjectReferenceImagePreview s;
     styleReferenceImageFile := styleReferenceImageFile s;
     styleReferenceImagePreview := styleReferenceImagePreview s;
     outputAspectRatio := outputAspectRatio s; outputCustomWidth := outputCustomWidth s;
     outputCustomHeight := v; isEditingEnhancedPrompt := isEditingEnhancedPrompt s;
     editedEnhancedPromptText := editedEnhancedPromptText s |}.

Definition setIsEditingEnhancedPrompt (v : bool) (s : App) : App :=
  {| appState := appState s; basicPrompt := basicPrompt s;
     questionAnswers := questionAnswers s; enhancedResult := enhancedResult s;
     error := error s; apiKeyExists := apiKeyExists s;
     copiedEnhancedPrompt := copiedEnhancedPrompt s;
     copiedNegativePrompt := copiedNegativePrompt s;
     copiedSuggestionIndex := copiedSuggestionIndex s;
     subjectReferenceImageFile := subjectReferenceImageFile s;
     subjectReferenceImagePreview := subjectReferenceImagePreview s;
     styleReferenceImageFile := styleReferenceImageFile s;
     styleReferenceImagePreview := styleReferenceImagePreview s;
     outputAspectRatio := outputAspectRatio s; outputCustomWidth := outputCustomWidth s;
     outputCustomHeight := outputCustomHeight s; isEditingEnhancedPrompt := v;
     editedEnhancedPromptText := editedEnhancedPromptText s |}.

Definition setEditedEnhancedPromptText (v : JsValue) (s : App) : App :=
  {| appState := appState s; basicPrompt := basicPrompt s;
     questionAnswers := questionAnswers s; enhancedResult := enhancedResult s;
     error := error s; apiKeyExists := apiKeyExists s;
     copiedEnhancedPrompt := copiedEnhancedPrompt s;
     copiedNegativePrompt := copiedNegativePrompt s;
     copiedSuggestionIndex := copiedSuggestionIndex s;
     subjectReferenceImageFile := subjectReferenceImageFile s;
     subjectReferenceImagePreview := subjectReferenceImagePreview s;
     styleReferenceImageFile := styleReferenceImageFile s;
     styleReferenceImagePreview := styleReferenceImagePreview s;
     outputAspectRatio := outputAspectRatio s; outputCustomWidth := outputCustomWidth s;
     outputCustomHeight := outputCustomHeight s;
     isEditingEnhancedPrompt := isEditingEnhancedPrompt s;
     editedEnhancedPromptText := v |}.

(** [s |> f |> g] runs the updates [f] then [g], in the order the source
    calls the setters. *)
Notation "s |> f" := (f s) (at level 45, left associativity, only parsing).

Definition MAX_IMAGE_SIZE_MB : N := 5.
Definition ALLOWED_IMAGE_TYPES : list string := ["image/jpeg"; "image/png"; "image/webp"].
Definition IPHONE_14_WALLPAPER_OPTION_VALUE : string := "iphone_14_14pro_wallpaper".
Definition NUMBER_OF_QUESTIONS_TO_ASK : nat := 11.

(** The values the [useState] calls start from. *)
Definition initial : App :=
  {| appState := INITIAL;
     basicPrompt := "";
     questionAnswers := [];
     enhancedResult := None;
     error := None;
     apiKeyExists := false;
     copiedEnhancedPrompt := false;
     copiedNegativePrompt := false;
     copiedSuggestionIndex := None;
     subjectReferenceImageFile := None;
     subjectReferenceImagePreview := None;
     styleReferenceImageFile := None;
     styleReferenceImagePreview := None;
     outputAspectRatio := "auto";
     outputCustomWidth := "";
     outputCustomHeight := "";
     isEditingEnhancedPrompt := false;
     editedEnhancedPromptText := Some (JStr "") |}.

(** ** [src/App.tsx]: the handlers *)

Inductive ImageType : Type := subject | style.

(** How a [FileReader.readAsDataURL] ends: [onerror], or [onload] with the
    data URL in [reader.result]. *)
Inductive ReadOutcome : Type :=
| ReadError
| ReadResult (result : string).

(** One run of an asynchronous handler: the states it commits, in order, and
    the request the operation it called made, if any. *)
Record Run : Type := mkRun {
  commits : list App;
  sent : option Request
}.

(** The state a handler leaves behind when started in [s]. *)
Definition final (s : App) (r : Run) : App := last (commits r) s.

Definition string_of_N (n : N) : string :=
  NilEmpty.string_of_uint (N.to_uint n).

(** [(err as Error).message || fallback]; a failed read rejects with an event,
    which has no [message] ([None]). *)
Definition message_or (message : option string) (fallback : string) : string :=
  match message with
  | Some m => if Js.truthy m then m else fallback
  | None => fallback
  end.

(** [{ base64: result.split(',')[1], mimeType: file.type }] *)
Definition toReferenceImage (file : File) (result : string) : ReferenceImage :=
  {| base64 := nth_error (Js.split_on (ascii_of_nat 44) result) 1;
     mimeType := type file |}.

(** [!text.trim()] *)
Definition blank (text : string) : bool := negb (Js.truthy (Js.trim text)).

(** The [useEffect] that runs once on mount; [None] is an unset variable. *)
Definition mount (API_KEY : option string) : App :=
  match API_KEY with
  | Some key =>
      if Js.truthy key && negb (String.eqb key "MISSING_API_KEY")
         && (10 <? Js.utf16_length key)%nat
      then initial |> setApiKeyExists true
      else initial
             |> setError (Some "Klucz API Gemini nie jest skonfigurowany lub jest nieprawidłowy. Upewnij się, że zmienna środowiskowa API_KEY jest poprawnie ustawiona w pliku .env lub w konfiguracji środowiska wdrożenia. Aplikacja nie może działać bez ważnego klucza API.")
             |> setAppState ERROR
  | None =>
      initial
        |> setError (Some "Klucz API Gemini nie jest skonfigurowany lub jest nieprawidłowy. Upewnij się, że zmienna środowiskowa API_KEY jest poprawnie ustawiona w pliku .env lub w konfiguracji środowiska wdrożenia. Aplikacja nie może działać bez ważnego klucza API.")
        |> setAppState ERROR
  end.

(** [setXReferenceImageFile(f); setXReferenceImagePreview(p)] for the slot
    [imageType]. *)
Definition setSlot (imageType : ImageType) (f : option File) (p : option string)
    (s : App) : App :=
  match imageType with
  | subject => s |> setSubjectReferenceImageFile f |> setSubjectReferenceImagePreview p
  | style => s |> setStyleReferenceImageFile f |> setStyleReferenceImagePreview p
  end.

(** [handleImageUpload]: [file] is [event.target.files?.[0]]; [result] is
    [reader.result] when [onloadend] fires ([None]: the read failed).  The
    list holds the state after the handler returns and, for an accepted
    file, the state after [onloadend]. *)
Definition handleImageUpload (file : option File) (imageType : ImageType)
    (result : option string) (s : App) : list App :=
  match file with
  | None => []
  | Some file =>
      if negb (Js.mem (type file) ALLOWED_IMAGE_TYPES) then
        [ s |> setError (Some ("Nieprawidłowy format pliku (" ++ name file
                                 ++ "). Dozwolone formaty: JPG, PNG, WEBP."))
            |> setSlot imageType None None ]
      else if (MAX_IMAGE_SIZE_MB * 1024 * 1024 <? size file)%N then
        [ s |> setError (Some ("Plik " ++ name file
                                 ++ " jest zbyt duży. Maksymalny rozmiar to "
                                 ++ string_of_N MAX_IMAGE_SIZE_MB ++ "MB."))
            |> setSlot imageType None None ]
      else
        let s1 := s |> setError None in
        [ s1; s1 |> setSlot imageType (Some file) result ]
  end.

Definition clearReferenceImage (imageType : ImageType) (s : App) : App :=
  s |> setSlot imageType None None |> setError None.

Definition handleGenerateDescriptionFromImage (read : ReadOutcome) (reply : ModelReply)
    (s : App) : Run :=
  match subjectReferenceImageFile s with
  | None =>
      mkRun [ s |> setError (Some "Najpierw prześlij obraz (Temat/Obiekt), aby wygenerować jego opis.") ]
            None
  | Some file =>
      let s1 := s |> setError None |> setAppState GENERATING_DESCRIPTION in
      let failed (message : option string) :=
        s1 |> setError (Some (message_or message
                                "Nie udało się wygenerować opisu obrazu. Sprawdź konsolę."))
           |> setAppState INITIAL in
      match read with
      | ReadError => mkRun [s1; failed None] None
      | ReadResult result =>
          let call := generateImageDescription (toReferenceImage file result) reply in
          match settled call with
          | Resolved description =>
              mkRun [ s1;
                      s1 |> setBasicPrompt description |> setAppState INITIAL
                         |> setError None ]
                    (request call)
          | Rejected message => mkRun [s1; failed (Some message)] (request call)
          end
      end
  end.

(** The message thrown when the number of questions is not the expected one. *)
Definition count_mismatch_message (received : nat) : string :=
  "Niespodziewana liczba pytań od AI. Otrzymano " ++ Js.string_of_nat received
    ++ ", oczekiwano " ++ Js.string_of_nat NUMBER_OF_QUESTIONS_TO_ASK ++ ".".

Definition handleBasicPromptSubmit (reply : ModelReply) (s : App) : Run :=
  if blank (basicPrompt s) then
    mkRun [ s |> setError (Some "Proszę wpisać podstawowy pomysł na prompt lub wygenerować go z obrazu tematu.") ]
          None
  else
    let s1 := s |> setError None |> setAppState GENERATING_QUESTIONS in
    let failed (message : string) :=
      s1 |> setError (Some (message_or (Some message)
                              ("Nie udało się wygenerować "
                                 ++ Js.string_of_nat NUMBER_OF_QUESTIONS_TO_ASK
                                 ++ " pytań. Sprawdź konsolę, aby uzyskać więcej szczegółów.")))
         |> setAppState ERROR in
    let call := generateQuestions (basicPrompt s) reply in
    match settled call with
    | Resolved newQuestionAnswers =>
        if negb (List.length newQuestionAnswers =? NUMBER_OF_QUESTIONS_TO_ASK)%nat then
          mkRun [s1; failed (count_mismatch_message (List.length newQuestionAnswers))]
                (request call)
        else
          mkRun [ s1;
                  s1 |> setQuestionAnswers newQuestionAnswers
                     |> setAppState ASKING_QUESTIONS ]
                (request call)
    | Rejected message => mkRun [s1; failed message] (request call)
    end.

(** [qa.id === questionId] for the string [questionId]: only a string with
    the same text is strictly equal to it. *)
Definition id_is (qa : QuestionAnswer) (questionId : string) : bool :=
  match id qa with
  | Some (JStr i) => String.eqb i questionId
  | _ => false
  end.

(** The callback of [prevQAs.map] in [handleAnswerChange]; an omitted
    argument is [None]. *)
Definition answerChange (questionId : string) (newAnswer : option string)
    (selectedOption : option string) (isChecked : option bool)
    (qa : QuestionAnswer) : QuestionAnswer :=
  if id_is qa questionId then
    let newSelectedOptions := selectedOptions qa in
    let newSelectedOptions :=
      match selectedOption, isChecked with
      | Some selected, Some checked =>
          if checked then
            if negb (Js.mem selected newSelectedOptions)
            then (newSelectedOptions ++ [selected])%list
            else newSelectedOptions
          else
            filter (fun opt => negb (String.eqb opt selected)) newSelectedOptions
      | _, _ => newSelectedOptions
      end in
    {| id := id qa;
       questionText := questionText qa;
       fullQuestionPrompt := fullQuestionPrompt qa;
       answer := match newAnswer with Some a => a | None => answer qa end;
       options := options qa;
       selectedOptions := newSelectedOptions |}
  else qa.

Definition handleAnswerChange (questionId : string) (newAnswer : option string)
    (selectedOption : option string) (isChecked : option bool) (s : App) : App :=
  s |> setQuestionAnswers
         (map (answerChange questionId newAnswer selectedOption isChecked)
              (questionAnswers s)).

(** The subject image as the submit handlers encode it: [Some None] without
    a subject file, [None] when the read fails. *)
Definition readSubjectImage (read : ReadOutcome) (s : App)
    : option (option ReferenceImage) :=
  match subjectReferenceImageFile s with
  | None => Some None
  | Some file =>
      match read with
      | ReadError => None
      | ReadResult result => Some (Some (toReferenceImage file result))
      end
  end.

Definition handleEnhancementSubmit (read : ReadOutcome) (reply : ModelReply)
    (s : App) : Run :=
  let s1 := s |> setError None |> setAppState GENERATING_ENHANCEMENT in
  match readSubjectImage read s with
  | None =>
      mkRun [ s1;
              s1 |> setError (Some "Nie udało się przetworzyć obrazu referencyjnego tematu. Spróbuj ponownie lub kontynuuj bez obrazu.")
                 |> setAppState ASKING_QUESTIONS ]
            None
  | Some subjectImagePayload =>
      let call :=
        generateEnhancedPrompt (basicPrompt s) (questionAnswers s) subjectImagePayload
          reply in
      match settled call with
      | Resolved result =>
          mkRun [s1; s1 |> setEnhancedResult (Some result) |> setAppState SHOWING_RESULTS]
                (request call)
      | Rejected message =>
          mkRun [ s1;
                  s1 |> setError (Some (message_or (Some message)
                                          "Nie udało się wygenerować ulepszonego promptu. Sprawdź konsolę, aby uzyskać więcej szczegółów."))
                     |> setAppState ERROR ]
                (request call)
      end
  end.

(** The guard on custom dimensions written out in [handleMagicPromptSubmit]
    and [handleStyleInfluenceSubmit]; its [parseInt] has no radix. *)
Definition customDimensionsRejected (s : App) : bool :=
  String.eqb (outputAspectRatio s) "custom"
  && (blank (outputCustomWidth s) || blank (outputCustomHeight s)
      || Js.le_zero (Js.parseInt (outputCustomWidth s) 0)
      || Js.le_zero (Js.parseInt (outputCustomHeight s) 0)).

Definition custom_dimensions_message : string :=
  "Dla niestandardowych wymiarów, proszę podać prawidłową szerokość i wysokość (większe od 0).".

(** [currentOutputCustomWidth] and [currentOutputCustomHeight] *)
Definition currentOutputCustomWidth (s : App) : string :=
  if String.eqb (outputAspectRatio s) IPHONE_14_WALLPAPER_OPTION_VALUE
  then "1170" else outputCustomWidth s.

Definition currentOutputCustomHeight (s : App) : string :=
  if String.eqb (outputAspectRatio s) IPHONE_14_WALLPAPER_OPTION_VALUE
  then "2532" else outputCustomHeight s.

Definition magic_empty_message : string :=
  "Proszę wpisać podstawowy pomysł na prompt (może być po polsku lub angielsku) lub wygenerować go z obrazu tematu. Dla 'Magicznego Promptu', ten tekst (wraz z obrazem referencyjnym tematu, jeśli dodano) posłuży AI do kreatywnego rozwinięcia. Wynikowy prompt będzie po angielsku.".

Definition handleMagicPromptSubmit (read : ReadOutcome) (reply : ModelReply)
    (s : App) : Run :=
  if blank (basicPrompt s) then
    mkRun [s |> setError (Some magic_empty_message)] None
  else if customDimensionsRejected s then
    mkRun [s |> setError (Some custom_dimensions_message)] None
  else
    let s1 := s |> setError None |> setAppState GENERATING_MAGIC_PROMPT in
    match readSubjectImage read s with
    | None =>
        mkRun [ s1;
                s1 |> setError (Some "Nie udało się przetworzyć obrazu referencyjnego tematu dla magicznego promptu. Spróbuj ponownie lub kontynuuj bez obrazu.")
                   |> setAppState INITIAL ]
              None
    | Some subjectImagePayload =>
        let call :=
          generateMagicPrompt (basicPrompt s) (outputAspectRatio s)
            (currentOutputCustomWidth s) (currentOutputCustomHeight s)
            subjectImagePayload reply in
        match settled call with
        | Resolved result =>
            mkRun [s1; s1 |> setEnhancedResult (Some result) |> setAppState SHOWING_RESULTS]
                  (request call)
        | Rejected message =>
            mkRun [ s1;
                    s1 |> setError (Some (message_or (Some message)
                                            "Nie udało się wygenerować magicznego promptu. Sprawdź konsolę."))
                       |> setAppState ERROR ]
                  (request call)
        end
    end.

Definition handleCopyImageSubmit (read : ReadOutcome) (reply : ModelReply)
    (s : App) : Run :=
  match subjectReferenceImageFile s with
  | None =>
      mkRun [ s |> setError (Some "Najpierw prześlij obraz (Temat/Obiekt), który chcesz skopiować.") ]
            None
  | Some file =>
      let s1 := s |> setError None |> setAppState GENERATING_COPY_PROMPT in
      let failed (message : option string) :=
        s1 |> setError (Some (message_or message
                                "Nie udało się wygenerować promptu do kopiowania obrazu. Sprawdź konsolę."))
           |> setAppState ERROR in
      match read with
      | ReadError => mkRun [s1; failed None] None
      | ReadResult result =>
          let call := generateCopyImagePrompt (toReferenceImage file result) reply in
          match settled call with
          | Resolved result =>
              mkRun [s1; s1 |> setEnhancedResult (Some result) |> setAppState SHOWING_RESULTS]
                    (request call)
          | Rejected message => mkRun [s1; failed (Some message)] (request call)
          end
      end
  end.

Definition handleStyleInfluenceSubmit (readSubject readStyle : ReadOutcome)
    (reply : ModelReply) (s : App) : Run :=
  match styleReferenceImageFile s with
  | None =>
      mkRun [ s |> setError (Some "Aby zastosować wpływ stylu, prześlij 'Obraz Stylu Referencyjnego'.") ]
            None
  | Some styleFile =>
      if blank (basicPrompt s)
         && match subjectReferenceImageFile s with None => true | Some _ => false end
      then
        mkRun [ s |> setError (Some "Podaj 'Podstawowy pomysł/prompt' (może być po polsku lub angielsku) opisujący temat LUB prześlij 'Obraz Referencyjny (Temat/Obiekt)'. Wynikowy prompt będzie po angielsku.") ]
              None
      else if customDimensionsRejected s then
        mkRun [s |> setError (Some custom_dimensions_message)] None
      else
        let s1 := s |> setError None |> setAppState GENERATING_STYLE_INFLUENCE_PROMPT in
        match readSubjectImage readSubject s with
        | None =>
            mkRun [ s1;
                    s1 |> setError (Some "Nie udało się przetworzyć obrazu referencyjnego tematu. Spróbuj ponownie.")
                       |> setAppState INITIAL ]
                  None
        | Some subjectImagePayload =>
            match readStyle with
            | ReadError =>
                mkRun [ s1;
                        s1 |> setError (Some "Nie udało się przetworzyć obrazu stylu referencyjnego. Spróbuj ponownie.")
                           |> setAppState INITIAL ]
                      None
            | ReadResult styleResult =>
                let styleImagePayload := toReferenceImage styleFile styleResult in
                let call :=
                  generateStyleInfluencePrompt (basicPrompt s) styleImagePayload
                    subjectImagePayload (Some (outputAspectRatio s))
                    (Some (currentOutputCustomWidth s)) (Some (currentOutputCustomHeight s))
                    reply in
                match settled call with
                | Resolved result =>
                    mkRun [ s1;
                            s1 |> setEnhancedResult (Some result)
                               |> setAppState SHOWING_RESULTS ]
                          (request call)
                | Rejected message =>
                    mkRun [ s1;
                            s1 |> setError (Some (message_or (Some message)
                                                    "Nie udało się wygenerować promptu z wpływem stylu. Sprawdź konsolę."))
                               |> setAppState ERROR ]
                          (request call)
                end
            end
        end
  end.

Definition handleEditEnhancedPrompt (s : App) : App :=
  match enhancedResult s with
  | Some result =>
      s |> setEditedEnhancedPromptText (enhancedPrompt result)
        |> setIsEditingEnhancedPrompt true
        |> setError None
  | None => s
  end.

Definition handleCancelEditEnhancedPrompt (s : App) : App :=
  s |> setIsEditingEnhancedPrompt false |> setEditedEnhancedPromptText (Some (JStr "")).

(** [editedEnhancedPromptText.trim()] throws unless the draft is a string;
    the handler then stops before any state is set. *)
Definition handleSubmitRefinedPrompt (read : ReadOutcome) (reply : ModelReply)
    (s : App) : Run :=
  match editedEnhancedPromptText s with
  | Some (JStr draft) =>
      if blank draft then
        mkRun [s |> setError (Some "Edytowany prompt nie może być pusty.")] None
      else
        let s1 := s |> setError None |> setAppState GENERATING_REFINEMENT in
        match readSubjectImage read s with
        | None =>
            mkRun [ s1;
                    s1 |> setError (Some "Nie udało się przetworzyć obrazu referencyjnego tematu dla poprawki. Spróbuj ponownie.")
                       |> setAppState SHOWING_RESULTS
                       |> setIsEditingEnhancedPrompt true ]
                  None
        | Some subjectImagePayload =>
            let call :=
              refineEditedPrompt draft (basicPrompt s) (questionAnswers s)
                subjectImagePayload reply in
            match settled call with
            | Resolved result =>
                mkRun [ s1;
                        s1 |> setEnhancedResult (Some result)
                           |> setAppState SHOWING_RESULTS
                           |> setIsEditingEnhancedPrompt false
                           |> setCopiedEnhancedPrompt false
                           |> setCopiedNegativePrompt false
                           |> setCopiedSuggestionIndex None ]
                      (request call)
            | Rejected message =>
                mkRun [ s1;
                        s1 |> setError (Some (message_or (Some message)
                                                "Nie udało się poprawić promptu. Sprawdź konsolę."))
                           |> setAppState ERROR ]
                      (request call)
            end
        end
  | _ => mkRun [] None
  end.

Definition handleStartOver (s : App) : App :=
  s |> setAppState INITIAL
    |> setBasicPrompt ""
    |> setQuestionAnswers []
    |> setEnhancedResult None
    |> setError None
    |> setSubjectReferenceImageFile None |> setSubjectReferenceImagePreview None
    |> setStyleReferenceImageFile None |> setStyleReferenceImagePreview None
    |> setCopiedEnhancedPrompt false
    |> setCopiedNegativePrompt false
    |> setCopiedSuggestionIndex None
    |> setOutputAspectRatio "auto"
    |> setOutputCustomWidth ""
    |> setOutputCustomHeight ""
    |> setIsEditingEnhancedPrompt false
    |> setEditedEnhancedPromptText (Some (JStr "")).

(** The [useMemo] that disables the submit buttons; its [parseInt] has
    radix 10 and it tests for NaN. *)
Definition isCustomDimensionsInvalid (s : App) : bool :=
  if String.eqb (outputAspectRatio s) "custom" then
    if blank (outputCustomWidth s) || blank (outputCustomHeight s) then true
    else
      let width := Js.parseInt (outputCustomWidth s) 10 in
      let height := Js.parseInt (outputCustomHeight s) 10 in
      if Js.isNaN width || Js.le_zero width || Js.isNaN height || Js.le_zero height
      then true
      else false
  else false.

Inductive CopyKind : Type := enhanced | negative | suggestion.

(** [copyToClipboard]: [written] tells whether [navigator.clipboard.writeText]
    succeeded.  The second commit is the [setTimeout] callback. *)
Definition copyToClipboard (kind : CopyKind) (index : option nat) (written : bool)
    (s : App) : list App :=
  if written then
    let s1 :=
      match kind, index with
      | enhanced, _ => s |> setCopiedEnhancedPrompt true
      | negative, _ => s |> setCopiedNegativePrompt true
      | suggestion, Some i => s |> setCopiedSuggestionIndex (Some i)
      | suggestion, None => s
      end in
    [ s1;
      match kind with
      | enhanced => s1 |> setCopiedEnhancedPrompt false
      | negative => s1 |> setCopiedNegativePrompt false
      | suggestion => s1 |> setCopiedSuggestionIndex None
      end ]
  else [s |> setError (Some "Nie udało się skopiować tekstu do schowka.")].

(** ** The component as a transition system *)

(** What can happen to the component: a form field edited, a button
    pressed.  An event carries what the outside world answers during
    the handler it triggers. *)
Inductive Event : Type :=
| TypeBasicPrompt (text : string)
| SelectAspectRatio (value : string)
| TypeCustomWidth (value : string)
| TypeCustomHeight (value : string)
| TypeEditedPrompt (text : string)
| Upload (file : option File) (imageType : ImageType) (result : option string)
| ClearImage (imageType : ImageType)
| GenerateDescription (read : ReadOutcome) (reply : ModelReply)
| BasicPromptSubmit (reply : ModelReply)
| AnswerChange (questionId : string) (newAnswer selectedOption : option string)
    (isChecked : option bool)
| EnhancementSubmit (read : ReadOutcome) (reply : ModelReply)
| MagicPromptSubmit (read : ReadOutcome) (reply : ModelReply)
| CopyImageSubmit (read : ReadOutcome) (reply : ModelReply)
| StyleInfluenceSubmit (readSubject readStyle : ReadOutcome) (reply : ModelReply)
| EditEnhancedPrompt
| CancelEditEnhancedPrompt
| SubmitRefinedPrompt (read : ReadOutcome) (reply : ModelReply)
| StartOver
| CopyToClipboard (kind : CopyKind) (index : option nat) (written : bool).

(** The states an event commits, in order. *)
Definition run (e : Event) (s : App) : list App :=
  match e with
  | TypeBasicPrompt text => [s |> setBasicPrompt text]
  | SelectAspectRatio value => [s |> setOutputAspectRatio value]
  | TypeCustomWidth value => [s |> setOutputCustomWidth value]
  | TypeCustomHeight value => [s |> setOutputCustomHeight value]
  | TypeEditedPrompt text => [s |> setEditedEnhancedPromptText (Some (JStr text))]
  | Upload file imageType result => handleImageUpload file imageType result s
  | ClearImage imageType => [clearReferenceImage imageType s]
  | GenerateDescription read reply =>
      commits (handleGenerateDescriptionFromImage read reply s)
  | BasicPromptSubmit reply => commits (handleBasicPromptSubmit reply s)
  | AnswerChange questionId newAnswer selectedOption isChecked =>
      [handleAnswerChange questionId newAnswer selectedOption isChecked s]
  | EnhancementSubmit read reply => commits (handleEnhancementSubmit read reply s)
  | MagicPromptSubmit read reply => commits (handleMagicPromptSubmit read reply s)
  | CopyImageSubmit read reply => commits (handleCopyImageSubmit read reply s)
  | StyleInfluenceSubmit readSubject readStyle reply =>
      commits (handleStyleInfluenceSubmit readSubject readStyle reply s)
  | EditEnhancedPrompt => [handleEditEnhancedPrompt s]
  | CancelEditEnhancedPrompt => [handleCancelEditEnhancedPrompt s]
  | SubmitRefinedPrompt read reply => commits (handleSubmitRefinedPrompt read reply s)
  | StartOver => [handleStartOver s]
  | CopyToClipboard kind index written => copyToClipboard kind index written s
  end.

(** The state after an event. *)
Definition step (e : Event) (s : App) : App := last (run e s) s.

(** The states the component passes through: the mounted state, and every
    state committed by an event in such a state. *)
Inductive reachable : App -> Prop :=
| reachable_mount : forall API_KEY, reachable (mount API_KEY)
| reachable_commit : forall s e s',
    reachable s -> In s' (run e s) -> reachable s'.

(** * Properties *)

(** ** Helpers to read a state *)

Definition slotFile (imageType : ImageType) (s : App) : option File :=
  match imageType with
  | subject => subjectReferenceImageFile s
  | style => styleReferenceImageFile s
  end.

Definition slotPreview (imageType : ImageType) (s : App) : option string :=
  match imageType with
  | subject => subjectReferenceImagePreview s
  | style => styleReferenceImagePreview s
  end.

(** Every [selectedOptions] list of the state is free of repetitions. *)
Definition no_duplicates (s : App) : Prop :=
  Forall (fun qa => NoDup (selectedOptions qa)) (questionAnswers s).

(** The payload the design describes: the instruction, then the style image
    if there is one, then the subject image if there is one. *)
Definition image_part (image : ReferenceImage) : Part :=
  InlineData (mimeType image) (base64 image).

Definition ordered_payload (instruction : string)
    (styleImage subjectImage : option ReferenceImage) : list Part :=
  (TextPart instruction
     :: match styleImage with Some im => [image_part im] | None => [] end
     ++ match subjectImage with Some im => [image_part im] | None => [] end)%list.

(** [x.k] for a value [x] that is not [null]. *)
Definition property (x : json) (k : string) : JsValue :=
  match x with
  | JObj fields => lookup k fields
  | _ => undefined
  end.

(** The question made from one entry of the reply, nothing checked. *)
Definition unchecked_question (q : json) : QuestionAnswer :=
  {| id := property q "id";
     questionText := property q "questionText";
     fullQuestionPrompt := stringify q;
     answer := "";
     options := or_else (property q "options") empty_array;
     selectedOptions := [] |}.

(** The result made from a parsed reply, nothing checked. *)
Definition unchecked_result (data : json) : EnhancedPromptResult :=
  {| enhancedPrompt := property data "enhancedPrompt";
     negativePrompt := property data "negativePrompt";
     suggestions := or_else (property data "suggestions") empty_array;
     outputTypeUsed := RASTER_PROMPT |}.

(** The only replies a result-shaped operation fails on: the call throws,
    the text is not JSON, or it is the JSON [null]. *)
Definition unusable (reply : ModelReply) : Prop :=
  match reply with
  | CallThrows => True
  | ReplyText _ None => True
  | ReplyText _ (Some JNull) => True
  | ReplyText _ (Some _) => False
  end.

(** How a result-shaped operation settles on [reply], [message] being its
    own failure message. *)
Definition settles_unchecked (message : string) (reply : ModelReply)
    (p : Promise EnhancedPromptResult) : Prop :=
  (unusable reply -> p = Rejected message)
  /\ (forall text data, reply = ReplyText text (Some data) -> data <> JNull ->
      p = Resolved (unchecked_result data)).

(** What a commit can do to the list of questions: keep it, empty it, apply
    one answer change to it, or replace it by the questions of a reply. *)
Inductive questions_step (old : list QuestionAnswer) : list QuestionAnswer -> Prop :=
| questions_kept : questions_step old old
| questions_cleared : questions_step old []
| questions_answered : forall questionId a o c,
    questions_step old (map (answerChange questionId a o c) old)
| questions_generated : forall data qas,
    questions_of data = Some qas -> questions_step old qas.

(** A guard that fires commits one state: the old one with a message. *)
Definition refused (s : App) (r : Run) : Prop :=
  exists message, commits r = [setError (Some message) s] /\ sent r = None.

(** ** Sample inputs *)

(** A result with neither prompt. *)
Definition absent_fields : EnhancedPromptResult :=
  {| enhancedPrompt := undefined;
     negativePrompt := undefined;
     suggestions := Some (JArr []);
     outputTypeUsed := RASTER_PROMPT |}.


(** A reply given as its parsed value; its text is that value serialised. *)
Definition reply_of (data : json) : ModelReply := ReplyText (stringify data) (Some data).

Definition style_question : json :=
  JObj [ ("id", JStr "q1");
         ("questionText", JStr "Jaki styl artystyczny preferujesz?");
         ("options", JArr [JStr "Akwarela"; JStr "Pop art"]) ].

(** An entry whose question is the empty text and which has no options. *)
Definition empty_question : json :=
  JObj [ ("id", JStr "q1"); ("questionText", JStr "") ].

(** A question of which "Akwarela" is already selected. *)
Definition answered_question : QuestionAnswer :=
  {| id := Some (JStr "q1");
     questionText := Some (JStr "Jaki styl artystyczny preferujesz?");
     fullQuestionPrompt := stringify style_question;
     answer := "";
     options := Some (JArr [JStr "Akwarela"; JStr "Pop art"]);
     selectedOptions := ["Akwarela"] |}.

(** The mounted component after the idea "sunset over mountains" is typed. *)
Definition sunset : App :=
  mount (Some "sample-api-key-0001") |> setBasicPrompt "sunset over mountains".

Definition wallpaper_selected : App :=
  sunset |> setOutputAspectRatio IPHONE_14_WALLPAPER_OPTION_VALUE.

(** "custom" selected, with a width that [parseInt] cannot read. *)
Definition fraction_width : App :=
  sunset |> setOutputAspectRatio "custom"
         |> setOutputCustomWidth ".5" |> setOutputCustomHeight "100".

Definition custom (width height : string) (s : App) : App :=
  s |> setOutputAspectRatio "custom"
    |> setOutputCustomWidth width |> setOutputCustomHeight height.

Definition png : File := mkFile "style.png" "image/png" 2048.

Definition png_image : ReferenceImage := toReferenceImage png "data:image/png;base64,iVBORw0KGgo=".

(** A run of the component: eleven questions arrive, "Akwarela" is ticked
    twice in a row (the second tick finds it present), "Pop art" once. *)
Definition ticked_twice : App :=
  sunset
    |> step (BasicPromptSubmit (reply_of (JArr (repeat style_question 11))))
    |> step (AnswerChange "q1" None (Some "Akwarela") (Some true))
    |> step (AnswerChange "q1" None (Some "Akwarela") (Some true))
    |> step (AnswerChange "q1" None (Some "Pop art") (Some true)).

(** The wallpaper preset selected, with a style image uploaded. *)
Definition wallpaper_with_style : App :=
  wallpaper_selected |> setStyleReferenceImageFile (Some png).

Definition png_read : ReadOutcome := ReadResult "data:image/png;base64,iVBORw0KGgo=".

(** The instruction of a request: its text segment, or the bare prompt. *)
Definition instruction_of (r : option Request) : option string :=
  match r with
  | Some (PromptRequest prompt) => Some prompt
  | Some (PartsRequest (TextPart prompt :: _)) => Some prompt
  | _ => None
  end.

(** [text.includes(needle)] for an instruction that may be missing. *)
Definition mentions (needle : string) (instruction : option string) : bool :=
  match instruction with
  | Some text => Js.includes needle text
  | None => false
  end.

(** ** Further vocabulary *)

(** The states that render only a progress indicator. *)
Definition generating (a : AppState) : bool :=
  match a with
  | GENERATING_DESCRIPTION | GENERATING_QUESTIONS | GENERATING_ENHANCEMENT
  | GENERATING_MAGIC_PROMPT | GENERATING_COPY_PROMPT
  | GENERATING_STYLE_INFLUENCE_PROMPT | GENERATING_REFINEMENT => true
  | _ => false
  end.

(** A file that passes both checks of [handleImageUpload]. *)
Definition valid_file (f : File) : Prop :=
  In (type f) ALLOWED_IMAGE_TYPES /\ (size f <= MAX_IMAGE_SIZE_MB * 1024 * 1024)%N.

(** A slot holds a checked file or nothing, and no preview without a file. *)
Definition valid_slot (imageType : ImageType) (s : App) : Prop :=
  match slotFile imageType s with
  | Some f => valid_file f
  | None => slotPreview imageType s = None
  end.

(** The request an event's handler makes, if any. *)
Definition requested (e : Event) (s : App) : option Request :=
  match e with
  | GenerateDescription read reply => sent (handleGenerateDescriptionFromImage read reply s)
  | BasicPromptSubmit reply => sent (handleBasicPromptSubmit reply s)
  | EnhancementSubmit read reply => sent (handleEnhancementSubmit read reply s)
  | MagicPromptSubmit read reply => sent (handleMagicPromptSubmit read reply s)
  | CopyImageSubmit read reply => sent (handleCopyImageSubmit read reply s)
  | StyleInfluenceSubmit readSubject readStyle reply =>
      sent (handleStyleInfluenceSubmit readSubject readStyle reply s)
  | SubmitRefinedPrompt read reply => sent (handleSubmitRefinedPrompt read reply s)
  | _ => None
  end.

(** The MIME types of the images attached to a request. *)
Definition attached_types (r : option Request) : list string :=
  match r with
  | Some (PartsRequest parts) =>
      flat_map (fun p => match p with InlineData mime _ => [mime] | TextPart _ => [] end)
        parts
  | _ => []
  end.

(** The [disabled] attributes of the submit buttons, as [renderContent]
    writes them. *)
Definition basicSubmitDisabled (s : App) : bool := blank (basicPrompt s).

Definition magicSubmitDisabled (s : App) : bool :=
  blank (basicPrompt s) || isCustomDimensionsInvalid s.

Definition styleSubmitDisabled (s : App) : bool :=
  (blank (basicPrompt s)
   && match subjectReferenceImageFile s with None => true | Some _ => false end)
  || match styleReferenceImageFile s with None => true | Some _ => false end
  || isCustomDimensionsInvalid s.

(** The two buttons under the subject preview: rendered only with a preview,
    disabled without a file. *)
Definition subjectActionsEnabled (s : App) : bool :=
  match subjectReferenceImagePreview s, subjectReferenceImageFile s with
  | Some preview, Some _ => Js.truthy preview
  | _, _ => false
  end.

(** The button that submits the edited prompt: [editedEnhancedPromptText.trim()]
    is read while rendering, so the draft is a string here. *)
Definition refineSubmitDisabled (draft : string) : bool := blank draft.

(** The first state a run commits. *)
Definition entered (r : Run) : option AppState := option_map appState (hd_error (commits r)).

(** No comma among the characters of a text. *)
Definition comma_free (text : string) : Prop :=
  ~ In (ascii_of_nat 44) (list_ascii_of_string text).

(** A state with a result on show, not being edited. *)
Definition showing (result : EnhancedPromptResult) : App :=
  sunset |> setEnhancedResult (Some result) |> setAppState SHOWING_RESULTS.

Definition jpeg : File := mkFile "subject.jpg" "image/jpeg" 4096.

Definition jpeg_read : ReadOutcome := ReadResult "data:image/jpeg;base64,/9j/4AAQ".

(** Both images uploaded after the idea was typed. *)
Definition both_uploaded : App :=
  sunset
    |> step (Upload (Some jpeg) subject (Some "data:image/jpeg;base64,/9j/4AAQ"))
    |> step (Upload (Some png) style (Some "data:image/png;base64,iVBORw0KGgo=")).

(** The slot an upload does not address. *)
Definition other_slot (imageType : ImageType) : ImageType :=
  match imageType with subject => style | style => subject end.




(** Two further entries of a reply, with ids of their own. *)
Definition mood_question : json :=
  JObj [ ("id", JStr "q2");
         ("questionText", JStr "Jaki nastrój ma mieć obraz?");
         ("options", JArr [JStr "Spokojny"; JStr "Dramatyczny"]) ].

Definition light_question : json :=
  JObj [ ("id", JStr "q3");
         ("questionText", JStr "Jakie oświetlenie preferujesz?");
         ("options", JArr [JStr "Złota godzina"; JStr "Neon"]) ].

(** The question screen after a reply with three different questions among
    its eleven. *)
Definition asking : App :=
  sunset
    |> step (BasicPromptSubmit
               (reply_of (JArr (style_question :: mood_question
                                  :: repeat light_question 9)))).

(** ** Proof automation *)

#[local] Hint Constructors questions_step : core.

(** Case analysis on the commits of a handler. *)
Ltac in_commits :=
  repeat match goal with
         | H : In _ [] |- _ => destruct H
         | H : In _ (_ :: _) |- _ => destruct H as [<-|H]
         end.

Ltac split_handler :=
  repeat match goal with
         | H : In _ (commits (match ?x with _ => _ end)) |- _ => destruct x eqn:?
         | H : In _ (commits (if ?x then _ else _)) |- _ => destruct x eqn:?
         | H : In _ (match ?x with _ => _ end) |- _ => destruct x eqn:?
         | H : In _ (if ?x then _ else _) |- _ => destruct x eqn:?
         end.

(** Case analysis on every scrutinee of the goal. *)
Ltac crunch :=
  repeat first
    [ progress cbn
    | match goal with
      | |- context [match ?x with _ => _ end] => destruct x eqn:?
      end ].

Ltac unfold_handlers :=
  unfold handleImageUpload, clearReferenceImage, handleGenerateDescriptionFromImage,
    handleBasicPromptSubmit, handleAnswerChange, handleEnhancementSubmit,
    handleMagicPromptSubmit, handleCopyImageSubmit, handleStyleInfluenceSubmit,
    handleEditEnhancedPrompt, handleCancelEditEnhancedPrompt, handleSubmitRefinedPrompt,
    handleStartOver, copyToClipboard, setSlot.

(** ** Strings and lists *)

Example trim_sample : Js.trim "  a b 	" = "a b" /\ blank "   " = true /\ blank " x" = false.
Proof. repeat split. Qed.

Example parseInt_samples :
  Js.parseInt "1024" 10 = Some 1024%Z
  /\ Js.parseInt " 12px" 0 = Some 12%Z
  /\ Js.parseInt "-7" 0 = Some (-7)%Z
  /\ Js.parseInt "0x10" 0 = Some 16%Z
  /\ Js.parseInt "0x10" 10 = Some 0%Z
  /\ Js.parseInt ".5" 10 = None
  /\ Js.parseInt "abc" 0 = None
  /\ Js.parseInt "" 10 = None.
Proof. repeat split. Qed.

Example stringify_sample :
  stringify style_question
  = "{" ++ Js.quoted "id" ++ ":" ++ Js.quoted "q1" ++ ","
        ++ Js.quoted "questionText" ++ ":"
        ++ Js.quoted "Jaki styl artystyczny preferujesz?" ++ ","
        ++ Js.quoted "options" ++ ":[" ++ Js.quoted "Akwarela" ++ ","
        ++ Js.quoted "Pop art" ++ "]}".
Proof. reflexivity. Qed.

Example to_text_samples :
  to_text (JArr [JStr "a"; JNull; JArr [JNum "1"; JBool true]; JObj []])
  = Some "a,,1,true,[object Object]"
  /\ to_text (JObj [("toString", JNum "1")]) = None.
Proof. split; reflexivity. Qed.

Example utf16_length_samples :
  Js.utf16_length "sample-api-key-0001" = 19
  /\ Js.utf16_length "żółćżółćżó" = 10
  /\ appState (mount (Some "żółćżółćżó")) = ERROR
  /\ appState (mount (Some "żółćżółćżół")) = INITIAL.
Proof. repeat split. Qed.

Example toReferenceImage_sample :
  png_image = {| base64 := Some "iVBORw0KGgo="; mimeType := "image/png" |}.
Proof. reflexivity. Qed.

Lemma mem_In (x : string) (l : list string) : Js.mem x l = true <-> In x l.
Proof.
  induction l as [|y l IH]; simpl.
  - split; [discriminate | tauto].
  - rewrite orb_true_iff, String.eqb_eq, IH. tauto.
Qed.

Lemma mem_not_In (x : string) (l : list string) : Js.mem x l = false <-> ~ In x l.
Proof.
  rewrite <- mem_In. destruct (Js.mem x l); split; congruence.
Qed.

Lemma filter_out_absent (x : string) (l : list string) :
  ~ In x l -> filter (fun opt => negb (String.eqb opt x)) l = l.
Proof.
  induction l as [|y l IH]; simpl; intros H; [reflexivity|].
  destruct (String.eqb_spec y x) as [->|_]; simpl.
  - exfalso. apply H. now left.
  - f_equal. apply IH. tauto.
Qed.

Lemma filter_out_pushed (x : string) (l : list string) :
  ~ In x l -> filter (fun opt => negb (String.eqb opt x)) (l ++ [x]) = l.
Proof.
  intros H. rewrite filter_app, filter_out_absent by assumption.
  simpl. rewrite String.eqb_refl. simpl. apply app_nil_r.
Qed.

Lemma NoDup_push (x : string) (l : list string) :
  NoDup l -> ~ In x l -> NoDup (l ++ [x]).
Proof.
  intros Hl Hx. apply NoDup_app; [assumption | repeat constructor; simpl; tauto |].
  intros y Hy [<-|[]]. contradiction.
Qed.

Lemma NoDup_filter_string (f : string -> bool) (l : list string) :
  NoDup l -> NoDup (filter f l).
Proof.
  induction 1 as [|y l Hy Hl IH]; simpl; [constructor|].
  destruct (f y); [constructor|]; try assumption.
  rewrite filter_In. tauto.
Qed.

Lemma id_is_spec (qa : QuestionAnswer) (questionId : string) :
  id_is qa questionId = true <-> id qa = Some (JStr questionId).
Proof.
  unfold id_is. destruct (id qa) as [[| | |i| |]|]; try (split; congruence).
  rewrite String.eqb_eq. split; congruence.
Qed.

(** ** Answering questions *)

Lemma answerChange_other (questionId : string) (a o : option string) (c : option bool)
    (qa : QuestionAnswer) :
  id qa <> Some (JStr questionId) -> answerChange questionId a o c qa = qa.
Proof.
  intros H. unfold answerChange.
  destruct (id_is qa questionId) eqn:E; [|reflexivity].
  apply id_is_spec in E. contradiction.
Qed.

Lemma answerChange_keeps (questionId : string) (a o : option string) (c : option bool)
    (qa : QuestionAnswer) :
  let qa' := answerChange questionId a o c qa in
  id qa' = id qa /\ questionText qa' = questionText qa
  /\ fullQuestionPrompt qa' = fullQuestionPrompt qa /\ options qa' = options qa.
Proof.
  unfold answerChange. destruct (id_is qa questionId); simpl; auto.
Qed.

Lemma answerChange_id_is (questionId q : string) (a o : option string) (c : option bool)
    (qa : QuestionAnswer) :
  id_is (answerChange questionId a o c qa) q = id_is qa q.
Proof.
  unfold id_is. now rewrite (proj1 (answerChange_keeps questionId a o c qa)).
Qed.

Lemma answerChange_NoDup (questionId : string) (a o : option string) (c : option bool)
    (qa : QuestionAnswer) :
  NoDup (selectedOptions qa) -> NoDup (selectedOptions (answerChange questionId a o c qa)).
Proof.
  intros H. unfold answerChange.
  destruct (id_is qa questionId); [|assumption]. simpl.
  destruct o as [selected|]; [|assumption].
  destruct c as [[|]|]; [| |assumption].
  - destruct (Js.mem selected (selectedOptions qa)) eqn:E; simpl; [assumption|].
    apply NoDup_push; [assumption|]. now apply mem_not_In.
  - now apply NoDup_filter_string.
Qed.

(** C5. Starting over, from any state, leaves the basic idea empty, no
    questions, no result, neither image (file or preview), the aspect ratio
    "auto", both custom dimensions empty, editing off and the edit draft
    empty; the state is [INITIAL] and no message is shown. *)
Theorem handleStartOver_clears (s : App) :
  let s' := handleStartOver s in
  appState s' = INITIAL
  /\ basicPrompt s' = ""
  /\ questionAnswers s' = []
  /\ enhancedResult s' = None
  /\ subjectReferenceImageFile s' = None /\ subjectReferenceImagePreview s' = None
  /\ styleReferenceImageFile s' = None /\ styleReferenceImagePreview s' = None
  /\ outputAspectRatio s' = "auto"
  /\ outputCustomWidth s' = "" /\ outputCustomHeight s' = ""
  /\ isEditingEnhancedPrompt s' = false
  /\ editedEnhancedPromptText s' = Some (JStr "")
  /\ error s' = None.
Proof.
  cbv zeta. unfold handleStartOver. simpl. repeat split.
Qed.

(** Starting over is idempotent and only remembers whether the API key was
    found. *)
Lemma handleStartOver_initial (s : App) :
  handleStartOver s = setApiKeyExists (apiKeyExists s) initial.
Proof. reflexivity. Qed.

(** C6. An uploaded file never changes [appState].  It is accepted, and its
    preview stored, exactly when its declared type is image/jpeg, image/png or
    image/webp and it has at most 5 * 1024 * 1024 bytes.  A file of another
    type is refused with the message about the format, a file of an allowed
    type and more bytes with the message about the size (the type is checked
    first); either way the file and the preview of that slot are cleared. *)
Theorem handleImageUpload_validates (file : File) (imageType : ImageType)
    (result : option string) (s : App) :
  let committed := handleImageUpload (Some file) imageType result s in
  let s' := last committed s in
  Forall (fun c => appState c = appState s) committed
  /\ (In (type file) ["image/jpeg"; "image/png"; "image/webp"]
      /\ (size file <= 5 * 1024 * 1024)%N ->
      error s' = None /\ slotFile imageType s' = Some file
      /\ slotPreview imageType s' = result)
  /\ (~ In (type file) ["image/jpeg"; "image/png"; "image/webp"] ->
      error s' = Some ("Nieprawidłowy format pliku (" ++ name file
                         ++ "). Dozwolone formaty: JPG, PNG, WEBP.")
      /\ slotFile imageType s' = None /\ slotPreview imageType s' = None)
  /\ (In (type file) ["image/jpeg"; "image/png"; "image/webp"]
      /\ (5 * 1024 * 1024 < size file)%N ->
      error s' = Some ("Plik " ++ name file
                         ++ " jest zbyt duży. Maksymalny rozmiar to 5MB.")
      /\ slotFile imageType s' = None /\ slotPreview imageType s' = None).
Proof.
  cbv zeta. unfold handleImageUpload.
  change ALLOWED_IMAGE_TYPES with ["image/jpeg"; "image/png"; "image/webp"].
  destruct (Js.mem (type file) ["image/jpeg"; "image/png"; "image/webp"]) eqn:Hmem.
  - apply mem_In in Hmem. cbn [negb].
    change (MAX_IMAGE_SIZE_MB * 1024 * 1024)%N with 5242880%N.
    destruct (N.ltb_spec 5242880 (size file)) as [Hbig|Hsmall].
    + split; [repeat constructor; destruct imageType; reflexivity|].
      split; [intros [_ H]; lia|].
      split; [intros H; contradiction|].
      intros _. destruct imageType; repeat split.
    + split; [repeat constructor; destruct imageType; reflexivity|].
      split; [intros _; destruct imageType; repeat split|].
      split; [intros H; contradiction|].
      intros [_ H]. lia.
  - apply mem_not_In in Hmem. cbn [negb].
    split; [repeat constructor; destruct imageType; reflexivity|].
    split; [intros [H _]; contradiction|].
    split; [intros _; destruct imageType; repeat split|].
    intros [H _]. contradiction.
Qed.

(** A JPEG of 5 MB and one byte is refused for its size, whatever the
    state. *)
Lemma upload_one_byte_too_large (imageType : ImageType) (result : option string) (s : App) :
  let s' := last (handleImageUpload
                    (Some (mkFile "photo.jpg" "image/jpeg" (5 * 1024 * 1024 + 1)))
                    imageType result s) s in
  appState s' = appState s
  /\ error s' = Some "Plik photo.jpg jest zbyt duży. Maksymalny rozmiar to 5MB."
  /\ slotFile imageType s' = None /\ slotPreview imageType s' = None.
Proof.
  destruct imageType; repeat split.
Qed.

(** A JPEG of exactly 5 MB is accepted. *)
Lemma upload_exactly_5MB (imageType : ImageType) (result : option string) (s : App) :
  let file := mkFile "photo.jpg" "image/jpeg" (5 * 1024 * 1024) in
  let s' := last (handleImageUpload (Some file) imageType result s) s in
  slotFile imageType s' = Some file /\ slotPreview imageType s' = result.
Proof.
  destruct imageType; repeat split.
Qed.

(** C7 (as amended). Selecting an option that is not selected and then
    deselecting it leaves [selectedOptions] as it was, whatever the notes passed
    along. *)
Theorem select_then_deselect (qa : QuestionAnswer) (questionId selected : string)
    (a1 a2 : option string) :
  ~ In selected (selectedOptions qa) ->
  selectedOptions
    (answerChange questionId a2 (Some selected) (Some false)
       (answerChange questionId a1 (Some selected) (Some true) qa))
  = selectedOptions qa.
Proof.
  intros Habsent. unfold answerChange at 1. rewrite answerChange_id_is.
  unfold answerChange. destruct (id_is qa questionId); [|reflexivity].
  cbn [selectedOptions]. apply mem_not_In in Habsent. rewrite Habsent. cbn [negb].
  apply filter_out_pushed. now apply mem_not_In.
Qed.

Lemma select_then_deselect_witness :
  ~ In "Pop art" (selectedOptions answered_question)
  /\ selectedOptions
       (answerChange "q1" None (Some "Pop art") (Some false)
          (answerChange "q1" None (Some "Pop art") (Some true) answered_question))
     = ["Akwarela"].
Proof.
  split.
  - simpl. intros [H|[]]. discriminate H.
  - apply (select_then_deselect answered_question "q1" "Pop art" None None).
    simpl. intros [H|[]]. discriminate H.
Defined.

(** C7, as first stated, fails for an option that is already selected:
    selecting it changes nothing and deselecting it removes it. *)
Lemma select_then_deselect_already_selected :
  In "Akwarela" (selectedOptions answered_question)
  /\ selectedOptions
       (answerChange "q1" None (Some "Akwarela") (Some false)
          (answerChange "q1" None (Some "Akwarela") (Some true) answered_question))
     = [].
Proof.
  split; [now left | reflexivity].
Qed.

(** Without new notes the question itself comes back. *)
Lemma answerChange_select_deselect (qa : QuestionAnswer) (questionId selected : string) :
  (id qa = Some (JStr questionId) -> ~ In selected (selectedOptions qa)) ->
  answerChange questionId None (Some selected) (Some false)
    (answerChange questionId None (Some selected) (Some true) qa) = qa.
Proof.
  intros H. unfold answerChange at 1. rewrite answerChange_id_is.
  unfold answerChange. destruct (id_is qa questionId) eqn:E; [|reflexivity].
  apply id_is_spec, H in E. cbn.
  rewrite (proj2 (mem_not_In _ _) E). cbn [negb].
  rewrite filter_out_pushed by assumption. destruct qa; reflexivity.
Qed.

(** On the whole list: if the option is selected in none of the questions
    addressed, selecting and deselecting it gives the list back. *)
Lemma handleAnswerChange_select_deselect (s : App) (questionId selected : string) :
  (forall qa, In qa (questionAnswers s) -> id qa = Some (JStr questionId) ->
              ~ In selected (selectedOptions qa)) ->
  questionAnswers
    (handleAnswerChange questionId None (Some selected) (Some false)
       (handleAnswerChange questionId None (Some selected) (Some true) s))
  = questionAnswers s.
Proof.
  intros H. unfold handleAnswerChange. cbn [questionAnswers setQuestionAnswers].
  rewrite map_map. rewrite <- (map_id (questionAnswers s)) at 2.
  apply map_ext_in. intros qa Hqa.
  apply answerChange_select_deselect. now apply H.
Qed.

(** C10. An answer change keeps the list's length and order; a question
    whose id is not the given one is left as it is, and the addressed
    question keeps its id, text, raw prompt and options. *)
Theorem handleAnswerChange_frame (questionId : string) (newAnswer selectedOption : option string)
    (isChecked : option bool) (s : App) :
  Forall2
    (fun qa qa' =>
       id qa' = id qa
       /\ questionText qa' = questionText qa
       /\ fullQuestionPrompt qa' = fullQuestionPrompt qa
       /\ options qa' = options qa
       /\ (id qa <> Some (JStr questionId) -> qa' = qa))
    (questionAnswers s)
    (questionAnswers (handleAnswerChange questionId newAnswer selectedOption isChecked s)).
Proof.
  unfold handleAnswerChange. cbn [questionAnswers setQuestionAnswers].
  induction (questionAnswers s) as [|qa qas IH]; simpl; constructor; [|exact IH].
  destruct (answerChange_keeps questionId newAnswer selectedOption isChecked qa)
    as (Hid & Htext & Hfull & Hopts).
  repeat split; try assumption.
  apply answerChange_other.
Qed.

(** Nothing but the list of questions is touched. *)
Lemma handleAnswerChange_elsewhere (questionId : string) (a o : option string)
    (c : option bool) (s : App) :
  handleAnswerChange questionId a o c s
  = setQuestionAnswers (questionAnswers (handleAnswerChange questionId a o c s)) s.
Proof. reflexivity. Qed.

(** ** The questions a reply yields *)

Lemma map_throwing_Forall {A B : Type} (f : A -> option B) (P : B -> Prop) :
  (forall a b, f a = Some b -> P b) ->
  forall l l', Js.map_throwing f l = Some l' -> Forall P l'.
Proof.
  intros Hf. induction l as [|a l IH]; simpl; intros l' H.
  - injection H as <-. constructor.
  - destruct (f a) as [b|] eqn:Ea; [|discriminate].
    destruct (Js.map_throwing f l) as [bs|]; [|discriminate].
    injection H as <-. constructor; eauto.
Qed.

Lemma map_throwing_length {A B : Type} (f : A -> option B) :
  forall l l', Js.map_throwing f l = Some l' -> List.length l' = List.length l.
Proof.
  induction l as [|a l IH]; simpl; intros l' H.
  - injection H as <-. reflexivity.
  - destruct (f a); [|discriminate].
    destruct (Js.map_throwing f l) as [bs|]; [|discriminate].
    injection H as <-. simpl. f_equal. now apply IH.
Qed.

Lemma map_throwing_total {A B : Type} (f : A -> option B) (g : A -> B) :
  forall l, (forall a, In a l -> f a = Some (g a)) ->
            Js.map_throwing f l = Some (map g l).
Proof.
  induction l as [|a l IH]; simpl; intros H; [reflexivity|].
  rewrite (H a) by now left. rewrite IH by (intros; apply H; now right).
  reflexivity.
Qed.

Lemma map_throwing_None {A B : Type} (f : A -> option B) :
  forall l a, In a l -> f a = None -> Js.map_throwing f l = None.
Proof.
  induction l as [|x l IH]; simpl; intros a Hin Ha; [contradiction|].
  destruct Hin as [->|Hin].
  - now rewrite Ha.
  - destruct (f x); [|reflexivity]. now rewrite (IH a Hin Ha).
Qed.

Lemma question_of_unselected (q : json) (qa : QuestionAnswer) :
  question_of q = Some qa -> selectedOptions qa = [].
Proof.
  unfold question_of.
  destruct (member q "id"), (member q "questionText"), (member q "options");
    try discriminate.
  now intros [= <-].
Qed.

Lemma questions_of_unselected (data : json) (qas : list QuestionAnswer) :
  questions_of data = Some qas -> Forall (fun qa => selectedOptions qa = []) qas.
Proof.
  destruct data; try discriminate. simpl.
  apply map_throwing_Forall. exact question_of_unselected.
Qed.

Lemma generateQuestions_settled (basicPrompt : string) (reply : ModelReply)
    (qas : list QuestionAnswer) :
  settled (generateQuestions basicPrompt reply) = Resolved qas ->
  exists text data, reply = ReplyText text (Some data) /\ questions_of data = Some qas.
Proof.
  unfold generateQuestions, try_parsed. cbn [settled].
  destruct reply as [|text [data|]]; try discriminate.
  destruct (questions_of data) eqn:E; [|discriminate].
  intros [= <-]. eauto.
Qed.

Lemma run_questions (e : Event) (s s' : App) :
  In s' (run e s) -> questions_step (questionAnswers s) (questionAnswers s').
Proof.
  destruct e; cbn [run]; intros H.
  all: try (in_commits; cbn; auto; fail).
  - unfold handleImageUpload in H. split_handler; in_commits;
      destruct imageType; cbn; auto.
  - destruct imageType; in_commits; cbn; auto.
  - unfold handleGenerateDescriptionFromImage in H. split_handler;
      cbn [commits] in H; in_commits; cbn; auto.
  - unfold handleBasicPromptSubmit in H. split_handler;
      cbn [commits] in H; in_commits; cbn; auto.
    match goal with
    | E : settled (generateQuestions _ _) = Resolved _ |- _ =>
        apply generateQuestions_settled in E; destruct E as (text & data & _ & E)
    end.
    eauto.
  - unfold handleEnhancementSubmit in H. split_handler;
      cbn [commits] in H; in_commits; cbn; auto.
  - unfold handleMagicPromptSubmit in H. split_handler;
      cbn [commits] in H; in_commits; cbn; auto.
  - unfold handleCopyImageSubmit in H. split_handler;
      cbn [commits] in H; in_commits; cbn; auto.
  - unfold handleStyleInfluenceSubmit in H. split_handler;
      cbn [commits] in H; in_commits; cbn; auto.
  - unfold handleEditEnhancedPrompt in H. in_commits.
    destruct (enhancedResult s); cbn; auto.
  - unfold handleSubmitRefinedPrompt in H. split_handler;
      cbn [commits] in H; in_commits; cbn; auto.
  - unfold copyToClipboard in H. split_handler; in_commits;
      destruct kind; try destruct index; cbn; auto.
Qed.

Lemma questions_step_NoDup (old new : list QuestionAnswer) :
  questions_step old new ->
  Forall (fun qa => NoDup (selectedOptions qa)) old ->
  Forall (fun qa => NoDup (selectedOptions qa)) new.
Proof.
  intros [| |questionId a o c|data qas Hqas] Hold.
  - assumption.
  - constructor.
  - apply Forall_map. revert Hold. apply Forall_impl.
    intros qa. apply answerChange_NoDup.
  - apply questions_of_unselected in Hqas. revert Hqas. apply Forall_impl.
    intros qa ->. constructor.
Qed.

(** C8. No [selectedOptions] list ever holds an option twice: the questions
    made from a reply start with the empty list, an answer change adds an
    option only if it is absent and removes it by filtering, and no other
    event writes to the lists. *)
Theorem selectedOptions_never_repeat (s : App) :
  reachable s -> no_duplicates s.
Proof.
  induction 1 as [API_KEY|s e s' _ IH Hin].
  - unfold no_duplicates, mount.
    destruct API_KEY as [key|]; [|constructor].
    destruct (Js.truthy key && negb (String.eqb key "MISSING_API_KEY")
              && (10 <? Js.utf16_length key)%nat); constructor.
  - apply run_questions in Hin. unfold no_duplicates in *.
    now apply (questions_step_NoDup (questionAnswers s)).
Qed.

(** The questions of a reply all start with nothing selected. *)
Lemma generateQuestions_nothing_selected (basicPrompt : string) (reply : ModelReply)
    (qas : list QuestionAnswer) :
  settled (generateQuestions basicPrompt reply) = Resolved qas ->
  Forall (fun qa => selectedOptions qa = []) qas.
Proof.
  intros H. apply generateQuestions_settled in H.
  destruct H as (text & data & _ & H). now apply questions_of_unselected in H.
Qed.

Lemma reachable_sunset : reachable sunset.
Proof.
  apply (reachable_commit (mount (Some "sample-api-key-0001"))
           (TypeBasicPrompt "sunset over mountains")).
  - constructor.
  - now left.
Qed.

Lemma reachable_step (e : Event) (s : App) : reachable s -> reachable (step e s).
Proof.
  intros H. unfold step.
  destruct (run e s) as [|c l] eqn:E; [exact H|].
  apply (reachable_commit s e); [exact H|].
  rewrite E. clear E. revert c.
  induction l as [|d l IH]; intros c; [now left|].
  right. apply IH.
Qed.

Lemma selectedOptions_never_repeat_witness :
  map selectedOptions (questionAnswers ticked_twice)
  = repeat ["Akwarela"; "Pop art"] 11
  /\ no_duplicates ticked_twice.
Proof.
  split; [reflexivity|].
  apply (selectedOptions_never_repeat ticked_twice).
  unfold ticked_twice. repeat apply reachable_step. exact reachable_sunset.
Defined.

(** ** Requests *)

(** C9. Every operation that attaches images sends the instruction first,
    then the style image (only the style-influence operation has one), then
    the subject image if there is one.  For [generateEnhancedPrompt] and
    [refineEditedPrompt] this is the request whenever the instruction could be
    built. *)
Theorem payload_order (basicPrompt editedPrompt : string)
    (questionAnswers : list QuestionAnswer) (image styleImage : ReferenceImage)
    (subjectImage : option ReferenceImage)
    (aspectRatio customWidth customHeight : string)
    (styleAspectRatio styleWidth styleHeight : option string) (reply : ModelReply) :
  request (generateEnhancedPrompt basicPrompt questionAnswers subjectImage reply)
  = option_map (fun prompt => PartsRequest (ordered_payload prompt None subjectImage))
      (generateEnhancedPrompt_prompt basicPrompt questionAnswers)
  /\ request (generateImageDescription image reply)
     = Some (PartsRequest
               (ordered_payload generateImageDescription_prompt None (Some image)))
  /\ request (generateMagicPrompt basicPrompt aspectRatio customWidth customHeight
                subjectImage reply)
     = Some (PartsRequest
               (ordered_payload
                  (generateMagicPrompt_prompt basicPrompt aspectRatio customWidth
                     customHeight)
                  None subjectImage))
  /\ request (generateCopyImagePrompt image reply)
     = Some (PartsRequest
               (ordered_payload generateCopyImagePrompt_prompt None (Some image)))
  /\ request (generateStyleInfluencePrompt basicPrompt styleImage subjectImage
                styleAspectRatio styleWidth styleHeight reply)
     = Some (PartsRequest
               (ordered_payload
                  (generateStyleInfluencePrompt_prompt basicPrompt styleAspectRatio
                     styleWidth styleHeight)
                  (Some styleImage) subjectImage))
  /\ request (refineEditedPrompt editedPrompt basicPrompt questionAnswers subjectImage
                reply)
     = option_map (fun prompt => PartsRequest (ordered_payload prompt None subjectImage))
         (refineEditedPrompt_prompt editedPrompt basicPrompt questionAnswers).
Proof.
  unfold generateEnhancedPrompt, generateImageDescription, generateMagicPrompt,
    generateCopyImagePrompt, generateStyleInfluencePrompt, refineEditedPrompt.
  destruct (generateEnhancedPrompt_prompt basicPrompt questionAnswers);
    destruct (refineEditedPrompt_prompt editedPrompt basicPrompt questionAnswers);
    destruct subjectImage; repeat split.
Qed.

(** With both images, the style image comes second and the subject image
    third. *)
Lemma style_influence_payload (basicPrompt : string) (styleImage subjectImage : ReferenceImage)
    (reply : ModelReply) :
  request (generateStyleInfluencePrompt basicPrompt styleImage (Some subjectImage)
             (Some "auto") (Some "") (Some "") reply)
  = Some (PartsRequest
            [ TextPart (generateStyleInfluencePrompt_prompt basicPrompt
                          (Some "auto") (Some "") (Some ""));
              InlineData (mimeType styleImage) (base64 styleImage);
              InlineData (mimeType subjectImage) (base64 subjectImage) ]).
Proof. reflexivity. Qed.

(** X19. The style-influence handler hands the two images over in that order:
    with both files uploaded and read, the request holds the style image
    second and the subject image third. *)
Lemma handleStyleInfluenceSubmit_sends (s : App) (subjectFile styleFile : File)
    (subjectResult styleResult : string) (reply : ModelReply) :
  subjectReferenceImageFile s = Some subjectFile ->
  styleReferenceImageFile s = Some styleFile ->
  customDimensionsRejected s = false ->
  sent (handleStyleInfluenceSubmit (ReadResult subjectResult) (ReadResult styleResult)
          reply s)
  = Some (PartsRequest
            (ordered_payload
               (generateStyleInfluencePrompt_prompt (basicPrompt s)
                  (Some (outputAspectRatio s)) (Some (currentOutputCustomWidth s))
                  (Some (currentOutputCustomHeight s)))
               (Some (toReferenceImage styleFile styleResult))
               (Some (toReferenceImage subjectFile subjectResult)))).
Proof.
  intros Hsubject Hstyle Hdims.
  unfold handleStyleInfluenceSubmit, readSubjectImage.
  rewrite Hstyle, Hsubject, Hdims, andb_false_r.
  destruct reply as [|text [data|]]; cbn; try reflexivity.
  destruct (result_of data); reflexivity.
Qed.

(** ** Replies *)

Lemma member_property (x : json) (k : string) :
  x <> JNull -> member x k = Some (property x k).
Proof. destruct x; simpl; congruence. Qed.

Lemma result_of_unchecked (data : json) :
  data <> JNull -> result_of data = Some (unchecked_result data).
Proof.
  intros H. unfold result_of. now rewrite !member_property by assumption.
Qed.

Lemma question_of_unchecked (q : json) :
  q <> JNull -> question_of q = Some (unchecked_question q).
Proof.
  intros H. unfold question_of. now rewrite !member_property by assumption.
Qed.

Lemma try_parsed_result (message : string) (reply : ModelReply) :
  settles_unchecked message reply (try_parsed message reply result_of).
Proof.
  split.
  - destruct reply as [|text [[]|]]; simpl; intros H; try reflexivity; contradiction.
  - intros text data -> Hdata. simpl. now rewrite result_of_unchecked.
Qed.

(** C3 (as amended). The five result-shaped operations do not check the
    fields of the reply.  Each rejects, with its own message, when the call
    throws, when the text is not JSON or when it is the JSON [null] (and
    [generateEnhancedPrompt] and [refineEditedPrompt] also when the instruction
    cannot be built); on any other reply each resolves, a field the reply lacks
    being [undefined] in the result and missing suggestions the empty list. *)
Theorem result_fields_unchecked (basicPrompt editedPrompt : string)
    (questionAnswers : list QuestionAnswer) (image styleImage : ReferenceImage)
    (subjectImage : option ReferenceImage)
    (aspectRatio customWidth customHeight : string)
    (styleAspectRatio styleWidth styleHeight : option string) (reply : ModelReply) :
  match generateEnhancedPrompt_prompt basicPrompt questionAnswers with
  | Some _ =>
      settles_unchecked "Failed to generate enhanced prompt" reply
        (settled (generateEnhancedPrompt basicPrompt questionAnswers subjectImage reply))
  | None =>
      settled (generateEnhancedPrompt basicPrompt questionAnswers subjectImage reply)
      = Rejected "Failed to generate enhanced prompt"
  end
  /\ settles_unchecked "Failed to generate magic prompt" reply
       (settled (generateMagicPrompt basicPrompt aspectRatio customWidth customHeight
                   subjectImage reply))
  /\ settles_unchecked "Failed to generate copy image prompt" reply
       (settled (generateCopyImagePrompt image reply))
  /\ settles_unchecked "Failed to generate style influence prompt" reply
       (settled (generateStyleInfluencePrompt basicPrompt styleImage subjectImage
                   styleAspectRatio styleWidth styleHeight reply))
  /\ match refineEditedPrompt_prompt editedPrompt basicPrompt questionAnswers with
     | Some _ =>
         settles_unchecked "Failed to refine edited prompt" reply
           (settled (refineEditedPrompt editedPrompt basicPrompt questionAnswers
                       subjectImage reply))
     | None =>
         settled (refineEditedPrompt editedPrompt basicPrompt questionAnswers
                    subjectImage reply)
         = Rejected "Failed to refine edited prompt"
     end.
Proof.
  unfold generateEnhancedPrompt, generateMagicPrompt, generateCopyImagePrompt,
    generateStyleInfluencePrompt, refineEditedPrompt.
  destruct (generateEnhancedPrompt_prompt basicPrompt questionAnswers);
    destruct (refineEditedPrompt_prompt editedPrompt basicPrompt questionAnswers);
    cbn [settled]; repeat split; try apply try_parsed_result.
Qed.

(** C3, as first stated, fails: a reply that is the JSON object [{}] has
    neither required field, and every one of the five operations resolves on
    it; the magic-prompt flow then shows the result instead of an error. *)
Lemma missing_fields_not_rejected :
  settled (generateEnhancedPrompt "sunset over mountains" [] None (reply_of (JObj [])))
  = Resolved absent_fields
  /\ settled (generateMagicPrompt "sunset over mountains" "auto" "" "" None
                (reply_of (JObj [])))
     = Resolved absent_fields
  /\ settled (generateCopyImagePrompt png_image (reply_of (JObj [])))
     = Resolved absent_fields
  /\ settled (generateStyleInfluencePrompt "sunset over mountains" png_image None
                (Some "auto") (Some "") (Some "") (reply_of (JObj [])))
     = Resolved absent_fields
  /\ settled (refineEditedPrompt "a sunset" "sunset over mountains" [] None
                (reply_of (JObj [])))
     = Resolved absent_fields
  /\ appState (final sunset (handleMagicPromptSubmit ReadError (reply_of (JObj [])) sunset))
     = SHOWING_RESULTS.
Proof.
  repeat split.
Qed.

(** ** The question flow *)

Lemma questions_of_entries (items : list json) :
  ~ In JNull items -> questions_of (JArr items) = Some (map unchecked_question items).
Proof.
  intros H. simpl. apply map_throwing_total.
  intros q Hq. apply question_of_unchecked. intros ->. contradiction.
Qed.

Lemma questions_of_null_entry (items : list json) :
  In JNull items -> questions_of (JArr items) = None.
Proof.
  intros H. simpl. now apply (map_throwing_None question_of items JNull).
Qed.

Lemma In_JNull_dec (items : list json) : {In JNull items} + {~ In JNull items}.
Proof.
  induction items as [|q items [IH|IH]].
  - right. intros [].
  - left. now right.
  - destruct q; try (right; intros [H|H]; [discriminate H | contradiction]).
    left. now left.
Defined.

(** How [generateQuestions] settles: it resolves exactly on an array without
    a [null] entry, whatever the entries hold. *)
Lemma generateQuestions_cases (basicPrompt : string) (reply : ModelReply) :
  (exists text items,
      reply = ReplyText text (Some (JArr items)) /\ ~ In JNull items
      /\ settled (generateQuestions basicPrompt reply)
         = Resolved (map unchecked_question items))
  \/ ((forall text items, reply = ReplyText text (Some (JArr items)) -> In JNull items)
      /\ settled (generateQuestions basicPrompt reply)
         = Rejected "Failed to generate questions").
Proof.
  unfold generateQuestions. cbn [settled].
  destruct reply as [|text [data|]].
  - right. split; [discriminate | reflexivity].
  - destruct data as [| | | |items|]; try (right; split; [discriminate | reflexivity]).
    destruct (In_JNull_dec items) as [Hnull|Hnull].
    + right. split; [now intros ? ? [= _ <-]|].
      unfold try_parsed. now rewrite questions_of_null_entry.
    + left. exists text, items. repeat split; try assumption.
      unfold try_parsed. now rewrite questions_of_entries.
  - right. split; [discriminate | reflexivity].
Qed.

(** C1 (as amended). With a non-blank idea, the question flow ends in
    [ASKING_QUESTIONS] exactly when the reply parses to an array of eleven
    entries none of which is [null]; the entries' [questionText] and [options]
    are not looked at.  On an array of any other number of such entries it
    ends in [ERROR] with the message that quotes the number received and the
    eleven expected.  On every other reply (the call throws, the text is not
    JSON, the value is not an array, or the array holds a [null]) it ends in
    [ERROR] with the general message of [generateQuestions].  Whenever it does
    not end in [ASKING_QUESTIONS] it ends in [ERROR] and no state it commits is
    [ASKING_QUESTIONS]. *)
Theorem question_count_gate (reply : ModelReply) (s : App) :
  blank (basicPrompt s) = false ->
  let r := handleBasicPromptSubmit reply s in
  let s' := final s r in
  (appState s' = ASKING_QUESTIONS <->
   exists text items,
     reply = ReplyText text (Some (JArr items))
     /\ List.length items = 11 /\ ~ In JNull items)
  /\ (forall text items,
         reply = ReplyText text (Some (JArr items)) -> ~ In JNull items ->
         (List.length items = 11 ->
          questionAnswers s' = map unchecked_question items /\ error s' = None)
         /\ (List.length items <> 11 ->
             appState s' = ERROR
             /\ error s' = Some ("Niespodziewana liczba pytań od AI. Otrzymano "
                                   ++ Js.string_of_nat (List.length items)
                                   ++ ", oczekiwano 11.")))
  /\ (appState s' <> ASKING_QUESTIONS ->
      appState s' = ERROR
      /\ Forall (fun c => appState c <> ASKING_QUESTIONS) (commits r))
  /\ ((forall text items, reply = ReplyText text (Some (JArr items)) -> In JNull items) ->
      appState s' = ERROR /\ error s' = Some "Failed to generate questions").
Proof.
  intros Hidea. cbv zeta. unfold handleBasicPromptSubmit, final. rewrite Hidea.
  destruct (generateQuestions_cases (basicPrompt s) reply)
    as [(text & items & -> & Hnull & ->) | (Hbad & ->)].
  - assert (~ (forall text' items',
                  ReplyText text (Some (JArr items)) = ReplyText text' (Some (JArr items')) ->
                  In JNull items')) as Hgood.
    { intros H. apply Hnull. now apply (H text items). }
    rewrite length_map.
    change NUMBER_OF_QUESTIONS_TO_ASK with 11%nat.
    destruct (Nat.eqb_spec (List.length items) 11) as [Hlen|Hlen]; cbn.
    + split; [split; [intros _; now exists text, items | reflexivity]|].
      split.
      { intros ? ? [= _ <-] _. split; [now intros _ | intros H; contradiction]. }
      split; [intros H; now contradiction H | intros H; contradiction].
    + split.
      { split; [discriminate|]. intros (? & ? & [= _ <-] & H & _). contradiction. }
      split.
      { intros ? ? [= _ <-] _. split; [intros H; contradiction|]. intros _.
        now split. }
      split; [|intros H; contradiction].
      intros _. split; [reflexivity|]. repeat constructor; discriminate.
  - cbn. split.
    { split; [discriminate|]. intros (text & items & Hreply & _ & Hnull).
      now apply Hbad in Hreply. }
    split.
    { intros text items Hreply Hnull. now apply Hbad in Hreply. }
    split; [|intros _; split; reflexivity].
    intros _. split; [reflexivity|]. repeat constructor; discriminate.
Qed.

Lemma question_count_gate_witness :
  blank (basicPrompt sunset) = false
  /\ error (final sunset
              (handleBasicPromptSubmit (reply_of (JArr (repeat style_question 3))) sunset))
     = Some "Niespodziewana liczba pytań od AI. Otrzymano 3, oczekiwano 11.".
Proof.
  split; [reflexivity|].
  refine (proj2 (proj2 (proj1 (proj2
            (question_count_gate (reply_of (JArr (repeat style_question 3))) sunset
               eq_refl))
            _ (repeat style_question 3) eq_refl _) _)).
  - simpl. intuition discriminate.
  - simpl. discriminate.
Defined.

(** C1, as first stated, fails twice.  Eleven entries whose [questionText] is
    empty and which have no [options] are accepted; and an array of one entry,
    [null], is refused with the general message, not the one that quotes the
    number of entries. *)
Lemma empty_questions_accepted :
  (appState (final sunset
               (handleBasicPromptSubmit (reply_of (JArr (repeat empty_question 11))) sunset))
   = ASKING_QUESTIONS
   /\ map questionText
        (questionAnswers
           (final sunset
              (handleBasicPromptSubmit (reply_of (JArr (repeat empty_question 11)))
                 sunset)))
      = repeat (Some (JStr "")) 11)
  /\ error (final sunset (handleBasicPromptSubmit (reply_of (JArr [JNull])) sunset))
     = Some "Failed to generate questions".
Proof.
  repeat split.
Qed.

(** ** Dimensions *)

(** Both builders write a ratio other than "auto" and "custom" by its name,
    whatever width and height they are passed. *)
Lemma named_ratio_ignores_dimensions (aspectRatio w h w' h' : string) :
  aspectRatio <> "custom" ->
  magic_dimensionsText aspectRatio w h = magic_dimensionsText aspectRatio w' h'
  /\ style_dimensionsText (Some aspectRatio) (Some w) (Some h)
     = style_dimensionsText (Some aspectRatio) (Some w') (Some h').
Proof.
  intros H. apply String.eqb_neq in H.
  unfold magic_dimensionsText, style_dimensionsText. cbn [arg_is]. rewrite H.
  split; reflexivity.
Qed.

(** Whatever the idea, with the preset selected the magic-prompt flow sends
    the instruction built for the preset's name, whose dimension line is the
    name itself. *)
Lemma wallpaper_instruction (read : ReadOutcome) (reply : ModelReply) (s : App) :
  outputAspectRatio s = IPHONE_14_WALLPAPER_OPTION_VALUE ->
  blank (basicPrompt s) = false ->
  readSubjectImage read s <> None ->
  instruction_of (sent (handleMagicPromptSubmit read reply s))
  = Some (generateMagicPrompt_prompt (basicPrompt s) "iphone_14_14pro_wallpaper"
            "1170" "2532")
  /\ magic_dimensionsText "iphone_14_14pro_wallpaper" "1170" "2532"
     = "Aspect ratio: iphone_14_14pro_wallpaper".
Proof.
  intros Hratio Hidea Hread. split; [|reflexivity].
  unfold handleMagicPromptSubmit, customDimensionsRejected, currentOutputCustomWidth,
    currentOutputCustomHeight.
  rewrite Hidea, Hratio. cbn [String.eqb Ascii.eqb Bool.eqb IPHONE_14_WALLPAPER_OPTION_VALUE andb].
  destruct (readSubjectImage read s) as [image|]; [|contradiction].
  destruct (settled (generateMagicPrompt _ _ _ _ _ _)); destruct image; reflexivity.
Qed.

(** C2. With the wallpaper preset selected the caller does pass 1170 and
    2532 on, but neither builder reads a width or height unless the ratio is
    "custom": the instruction the magic-prompt flow and the style-influence
    flow send names the preset and holds neither number. *)
Theorem wallpaper_preset_sent_by_name (read : ReadOutcome) (reply : ModelReply) :
  currentOutputCustomWidth wallpaper_selected = "1170"
  /\ currentOutputCustomHeight wallpaper_selected = "2532"
  /\ (let instruction :=
        instruction_of (sent (handleMagicPromptSubmit read reply wallpaper_selected)) in
      mentions "Aspect ratio: iphone_14_14pro_wallpaper" instruction = true
      /\ mentions "1170" instruction = false
      /\ mentions "2532" instruction = false)
  /\ (let instruction :=
        instruction_of
          (sent (handleStyleInfluenceSubmit read png_read reply wallpaper_with_style)) in
      mentions "Aspect ratio: iphone_14_14pro_wallpaper" instruction = true
      /\ mentions "1170" instruction = false
      /\ mentions "2532" instruction = false).
Proof.
  split; [reflexivity|]. split; [reflexivity|]. split.
  - assert (sent (handleMagicPromptSubmit read reply wallpaper_selected)
            = Some (PartsRequest
                      [TextPart (generateMagicPrompt_prompt "sunset over mountains"
                                   IPHONE_14_WALLPAPER_OPTION_VALUE "1170" "2532")])) as ->.
    { unfold handleMagicPromptSubmit. cbn.
      destruct reply as [|text [data|]]; cbn; try reflexivity.
      destruct (result_of data); reflexivity. }
    cbv zeta. cbn [instruction_of mentions]. repeat split; vm_compute; reflexivity.
  - assert (sent (handleStyleInfluenceSubmit read png_read reply wallpaper_with_style)
            = Some (PartsRequest
                      [TextPart (generateStyleInfluencePrompt_prompt "sunset over mountains"
                                   (Some IPHONE_14_WALLPAPER_OPTION_VALUE)
                                   (Some "1170") (Some "2532"));
                       image_part png_image])) as ->.
    { unfold handleStyleInfluenceSubmit. cbn.
      destruct reply as [|text [data|]]; cbn; try reflexivity.
      destruct (result_of data); reflexivity. }
    cbv zeta. cbn [instruction_of mentions]. repeat split; vm_compute; reflexivity.
Qed.

(** ** Preconditions *)

(** The three sample inputs of the custom-dimension check. *)
Lemma custom_dimension_samples (s : App) (height : string) :
  isCustomDimensionsInvalid (custom "0" "100" s) = true
  /\ isCustomDimensionsInvalid (custom "1024" "768" s) = false
  /\ isCustomDimensionsInvalid (custom "" height s) = true
  /\ customDimensionsRejected (custom "0" "100" s) = true
  /\ customDimensionsRejected (custom "1024" "768" s) = false
  /\ customDimensionsRejected (custom "" height s) = true.
Proof. repeat split. Qed.

Lemma refused_keeps_state (s : App) (r : Run) :
  refused s r ->
  appState (final s r) = appState s /\ error (final s r) <> None
  /\ Forall (fun c => appState c = appState s) (commits r).
Proof.
  intros (message & Hc & _). unfold final. rewrite Hc. cbn.
  repeat split; [discriminate | repeat constructor].
Qed.

Lemma refused_questions (reply : ModelReply) (s : App) :
  blank (basicPrompt s) = true -> refused s (handleBasicPromptSubmit reply s).
Proof.
  intros H. unfold refused, handleBasicPromptSubmit. rewrite H. cbn; eauto.
Qed.

Lemma refused_magic (read : ReadOutcome) (reply : ModelReply) (s : App) :
  blank (basicPrompt s) = true \/ customDimensionsRejected s = true ->
  refused s (handleMagicPromptSubmit read reply s).
Proof.
  intros [H|H]; unfold refused, handleMagicPromptSubmit; rewrite H.
  - cbn; eauto.
  - destruct (blank (basicPrompt s)); cbn; eauto.
Qed.

Lemma refused_style (readSubject readStyle : ReadOutcome) (reply : ModelReply) (s : App) :
  styleReferenceImageFile s = None
  \/ (blank (basicPrompt s) = true /\ subjectReferenceImageFile s = None)
  \/ customDimensionsRejected s = true ->
  refused s (handleStyleInfluenceSubmit readSubject readStyle reply s).
Proof.
  intros [H|[[Hidea Hsubject]|H]]; unfold refused, handleStyleInfluenceSubmit.
  - rewrite H. cbn; eauto.
  - rewrite Hidea, Hsubject. destruct (styleReferenceImageFile s); cbn; eauto.
  - rewrite H. destruct (styleReferenceImageFile s); [|cbn; eauto].
    destruct (blank (basicPrompt s) && _); cbn; eauto.
Qed.

Lemma refused_image_flows (read : ReadOutcome) (reply : ModelReply) (s : App) :
  subjectReferenceImageFile s = None ->
  refused s (handleGenerateDescriptionFromImage read reply s)
  /\ refused s (handleCopyImageSubmit read reply s).
Proof.
  intros H. unfold refused, handleGenerateDescriptionFromImage, handleCopyImageSubmit.
  rewrite H. split; cbn; eauto.
Qed.

Lemma refused_refinement (read : ReadOutcome) (reply : ModelReply) (s : App)
    (draft : string) :
  editedEnhancedPromptText s = Some (JStr draft) -> blank draft = true ->
  refused s (handleSubmitRefinedPrompt read reply s).
Proof.
  intros H Hblank. unfold refused, handleSubmitRefinedPrompt. rewrite H, Hblank.
  cbn; eauto.
Qed.

(** X20. The nine guards of the submit handlers, as the handlers write them:
    one that fires commits the old state with a message and sends nothing. *)
Lemma guards_refuse (read read' : ReadOutcome) (reply : ModelReply) (s : App) :
  (blank (basicPrompt s) = true ->
   refused s (handleBasicPromptSubmit reply s)
   /\ refused s (handleMagicPromptSubmit read reply s))
  /\ (customDimensionsRejected s = true ->
      refused s (handleMagicPromptSubmit read reply s)
      /\ refused s (handleStyleInfluenceSubmit read read' reply s))
  /\ (subjectReferenceImageFile s = None ->
      refused s (handleGenerateDescriptionFromImage read reply s)
      /\ refused s (handleCopyImageSubmit read reply s))
  /\ (styleReferenceImageFile s = None ->
      refused s (handleStyleInfluenceSubmit read read' reply s))
  /\ (blank (basicPrompt s) = true -> subjectReferenceImageFile s = None ->
      refused s (handleStyleInfluenceSubmit read read' reply s))
  /\ (forall draft, editedEnhancedPromptText s = Some (JStr draft) -> blank draft = true ->
      refused s (handleSubmitRefinedPrompt read reply s)).
Proof.
  split; [|split; [|split; [|split; [|split]]]].
  - intros H. split; [now apply refused_questions | apply refused_magic; now left].
  - intros H. split; [apply refused_magic; now right | apply refused_style; auto].
  - apply refused_image_flows.
  - intros H. apply refused_style. now left.
  - intros Hidea Hsubject. apply refused_style. right; left. now split.
  - intros draft. apply refused_refinement.
Qed.

(** The guard written inside the two handlers is weaker than
    [isCustomDimensionsInvalid]: with "custom" selected, width ".5" and height
    "100" the latter reports the dimensions invalid, while the handlers, were
    they called, would let them through ([parseInt] gives NaN, and NaN <= 0 is
    false).  The buttons that call them are disabled in that state. *)
Theorem unreadable_width_passes_guard (read : ReadOutcome) (reply : ModelReply) :
  isCustomDimensionsInvalid fraction_width = true
  /\ customDimensionsRejected fraction_width = false
  /\ option_map appState
       (hd_error (commits (handleMagicPromptSubmit read reply fraction_width)))
     = Some GENERATING_MAGIC_PROMPT
  /\ option_map appState
       (hd_error (commits (handleStyleInfluenceSubmit read png_read reply
                             (fraction_width |> setStyleReferenceImageFile (Some png)))))
     = Some GENERATING_STYLE_INFLUENCE_PROMPT.
Proof.
  split; [reflexivity|]. split; [reflexivity|]. split.
  - unfold handleMagicPromptSubmit. cbn.
    destruct reply as [|text [data|]]; cbn; try reflexivity.
    destruct (result_of data); reflexivity.
  - unfold handleStyleInfluenceSubmit. cbn.
    destruct reply as [|text [data|]]; cbn; try reflexivity.
    destruct (result_of data); reflexivity.
Qed.


(** * Further properties *)

(** ** Leaving the generating states *)

(** X1. No event ends in a progress screen it has entered: after any event
    the component is in the state it was in, or in a state that is not a
    generating one. *)
Theorem step_rests (e : Event) (s : App) :
  appState (step e s) = appState s \/ generating (appState (step e s)) = false.
Proof.
  unfold step. destruct e; cbn [run]; unfold_handlers; crunch; auto.
Qed.

(** ** Failures *)

Lemma try_parsed_unusable {A : Type} (message : string) (reply : ModelReply)
    (body : json -> option A) :
  unusable reply -> body JNull = None -> try_parsed message reply body = Rejected message.
Proof.
  intros H Hnull. destruct reply as [|text [data|]]; try reflexivity.
  destruct data; try contradiction. simpl. now rewrite Hnull.
Qed.

Ltac service_fails H :=
  unfold_handlers; unfold final, generateQuestions, generateEnhancedPrompt,
    generateMagicPrompt, generateCopyImagePrompt, generateStyleInfluencePrompt,
    refineEditedPrompt;
  rewrite ?(try_parsed_unusable _ _ _ H) by reflexivity;
  crunch; intros; cbn in *;
  repeat match goal with
         | E : Rejected _ = Rejected _ |- _ => injection E as <-
         end;
  cbn in *; try congruence; auto.

(** X2. When the model call throws, or its reply is not JSON or is the JSON
    [null], each JSON-reading flow that got as far as sending its request ends
    in [ERROR] showing the service's own message; the handlers' fallback texts
    are not used. *)
Theorem failed_call_shows_service_message (read readStyle : ReadOutcome)
    (reply : ModelReply) (s : App) :
  unusable reply ->
  (sent (handleBasicPromptSubmit reply s) <> None ->
   appState (final s (handleBasicPromptSubmit reply s)) = ERROR
   /\ error (final s (handleBasicPromptSubmit reply s))
      = Some "Failed to generate questions")
  /\ (sent (handleEnhancementSubmit read reply s) <> None ->
      appState (final s (handleEnhancementSubmit read reply s)) = ERROR
      /\ error (final s (handleEnhancementSubmit read reply s))
         = Some "Failed to generate enhanced prompt")
  /\ (sent (handleMagicPromptSubmit read reply s) <> None ->
      appState (final s (handleMagicPromptSubmit read reply s)) = ERROR
      /\ error (final s (handleMagicPromptSubmit read reply s))
         = Some "Failed to generate magic prompt")
  /\ (sent (handleCopyImageSubmit read reply s) <> None ->
      appState (final s (handleCopyImageSubmit read reply s)) = ERROR
      /\ error (final s (handleCopyImageSubmit read reply s))
         = Some "Failed to generate copy image prompt")
  /\ (sent (handleStyleInfluenceSubmit read readStyle reply s) <> None ->
      appState (final s (handleStyleInfluenceSubmit read readStyle reply s)) = ERROR
      /\ error (final s (handleStyleInfluenceSubmit read readStyle reply s))
         = Some "Failed to generate style influence prompt")
  /\ (sent (handleSubmitRefinedPrompt read reply s) <> None ->
      appState (final s (handleSubmitRefinedPrompt read reply s)) = ERROR
      /\ error (final s (handleSubmitRefinedPrompt read reply s))
         = Some "Failed to refine edited prompt").
Proof.
  intros H.
  split; [service_fails H|]. split; [service_fails H|]. split; [service_fails H|].
  split; [service_fails H|]. split; [service_fails H|]. service_fails H.
Qed.

Lemma failed_call_shows_service_message_witness :
  unusable CallThrows
  /\ appState (final sunset (handleMagicPromptSubmit ReadError CallThrows sunset)) = ERROR
  /\ error (final sunset (handleMagicPromptSubmit ReadError CallThrows sunset))
     = Some "Failed to generate magic prompt".
Proof.
  split; [exact I|].
  apply (proj1 (proj2 (proj2
           (failed_call_shows_service_message ReadError ReadError CallThrows sunset I)))).
  discriminate.
Defined.

(** X3. When the subject image cannot be read, no handler sends a request.
    The flows that only attach the image go back to the screen they came from
    with a message; the two flows that are about the image report their own
    fallback message, the copy flow in [ERROR] and the description flow in
    [INITIAL]. *)
Theorem failed_read_sends_nothing (readStyle : ReadOutcome) (reply : ModelReply)
    (s : App) (file : File) :
  subjectReferenceImageFile s = Some file ->
  (sent (handleEnhancementSubmit ReadError reply s) = None
   /\ commits (handleEnhancementSubmit ReadError reply s)
      = [ s |> setError None |> setAppState GENERATING_ENHANCEMENT;
          s |> setError (Some "Nie udało się przetworzyć obrazu referencyjnego tematu. Spróbuj ponownie lub kontynuuj bez obrazu.")
            |> setAppState ASKING_QUESTIONS ])
  /\ (sent (handleMagicPromptSubmit ReadError reply s) = None
      /\ (refused s (handleMagicPromptSubmit ReadError reply s)
          \/ appState (final s (handleMagicPromptSubmit ReadError reply s)) = INITIAL
             /\ error (final s (handleMagicPromptSubmit ReadError reply s)) <> None))
  /\ (sent (handleStyleInfluenceSubmit ReadError readStyle reply s) = None
      /\ (refused s (handleStyleInfluenceSubmit ReadError readStyle reply s)
          \/ appState (final s (handleStyleInfluenceSubmit ReadError readStyle reply s))
             = INITIAL
             /\ error (final s (handleStyleInfluenceSubmit ReadError readStyle reply s))
                <> None))
  /\ (sent (handleSubmitRefinedPrompt ReadError reply s) = None
      /\ (commits (handleSubmitRefinedPrompt ReadError reply s) = []
          \/ refused s (handleSubmitRefinedPrompt ReadError reply s)
          \/ appState (final s (handleSubmitRefinedPrompt ReadError reply s))
             = SHOWING_RESULTS
             /\ isEditingEnhancedPrompt (final s (handleSubmitRefinedPrompt ReadError reply s))
                = true
             /\ error (final s (handleSubmitRefinedPrompt ReadError reply s)) <> None))
  /\ (sent (handleCopyImageSubmit ReadError reply s) = None
      /\ appState (final s (handleCopyImageSubmit ReadError reply s)) = ERROR
      /\ error (final s (handleCopyImageSubmit ReadError reply s))
         = Some "Nie udało się wygenerować promptu do kopiowania obrazu. Sprawdź konsolę.")
  /\ (sent (handleGenerateDescriptionFromImage ReadError reply s) = None
      /\ appState (final s (handleGenerateDescriptionFromImage ReadError reply s)) = INITIAL
      /\ error (final s (handleGenerateDescriptionFromImage ReadError reply s))
         = Some "Nie udało się wygenerować opisu obrazu. Sprawdź konsolę.").
Proof.
  intros Hfile. unfold refused, final.
  unfold_handlers; unfold readSubjectImage; rewrite Hfile.
  repeat split; crunch; try congruence; try discriminate; eauto 6.
  all: repeat (right; try (repeat split; discriminate)).
Qed.

Lemma failed_read_sends_nothing_witness :
  subjectReferenceImageFile both_uploaded = Some jpeg
  /\ sent (handleEnhancementSubmit ReadError CallThrows both_uploaded) = None.
Proof.
  split; [reflexivity|].
  apply (proj1 (proj1
           (failed_read_sends_nothing ReadError CallThrows both_uploaded jpeg eq_refl))).
Defined.

(** ** The buttons and the guards *)

(** A text with a hexadecimal prefix reads as zero in radix 10. *)
Lemma hex_prefix_reads_zero (text rest : string) :
  Js.strip_hex_prefix text = Some rest -> Js.read_digits 10 None text = Some 0%Z.
Proof.
  destruct text as [|a [|b tail]]; try discriminate. unfold Js.strip_hex_prefix.
  destruct (Nat.eqb_spec (nat_of_ascii a) 48) as [Ha|]; [|discriminate].
  destruct (Nat.eqb_spec (nat_of_ascii b) 120) as [Hb|];
    [|destruct (Nat.eqb_spec (nat_of_ascii b) 88) as [Hb|]; [|discriminate]];
    intros _; cbn [Js.read_digits]; unfold Js.digit_value; rewrite Ha, Hb; reflexivity.
Qed.

(** Where [parseInt] with radix 10 reads a positive number, [parseInt]
    without a radix reads the same number. *)
Lemma parseInt_positive (text : string) :
  Js.isNaN (Js.parseInt text 10) = false ->
  Js.le_zero (Js.parseInt text 10) = false ->
  Js.parseInt text 0 = Js.parseInt text 10.
Proof.
  unfold Js.parseInt. destruct (Js.strip_sign (Js.trimStart text)) as [sign digits].
  cbn [Z.eqb Z.ltb Z.compare Pos.compare Pos.compare_cont orb Pos.eqb].
  destruct (Js.strip_hex_prefix digits) as [rest|] eqn:Hhex; [|reflexivity].
  rewrite (hex_prefix_reads_zero digits rest Hhex). cbn [option_map Js.isNaN Js.le_zero].
  rewrite Z.mul_0_r. discriminate.
Qed.

Lemma valid_dimensions_pass (s : App) :
  isCustomDimensionsInvalid s = false -> customDimensionsRejected s = false.
Proof.
  unfold isCustomDimensionsInvalid, customDimensionsRejected.
  destruct (String.eqb (outputAspectRatio s) "custom"); [|reflexivity].
  destruct (blank (outputCustomWidth s)); [discriminate|].
  destruct (blank (outputCustomHeight s)); [discriminate|]. cbn [orb andb].
  destruct (Js.isNaN (Js.parseInt (outputCustomWidth s) 10)) eqn:Hw; [discriminate|].
  destruct (Js.le_zero (Js.parseInt (outputCustomWidth s) 10)) eqn:Hw'; [discriminate|].
  destruct (Js.isNaN (Js.parseInt (outputCustomHeight s) 10)) eqn:Hh; [discriminate|].
  destruct (Js.le_zero (Js.parseInt (outputCustomHeight s) 10)) eqn:Hh'; [discriminate|].
  intros _. rewrite !parseInt_positive, Hw', Hh' by assumption. reflexivity.
Qed.

(** X4. A button that is enabled starts its flow: whenever the [disabled]
    attribute of a submit button is false, the guards at the top of its
    handler let the click through and the first state committed is the
    flow's generating state.  The guards are never stricter than the
    buttons. *)
Theorem enabled_buttons_start (read readStyle : ReadOutcome) (reply : ModelReply)
    (s : App) :
  (basicSubmitDisabled s = false ->
   entered (handleBasicPromptSubmit reply s) = Some GENERATING_QUESTIONS)
  /\ (magicSubmitDisabled s = false ->
      entered (handleMagicPromptSubmit read reply s) = Some GENERATING_MAGIC_PROMPT)
  /\ (styleSubmitDisabled s = false ->
      entered (handleStyleInfluenceSubmit read readStyle reply s)
      = Some GENERATING_STYLE_INFLUENCE_PROMPT)
  /\ (subjectActionsEnabled s = true ->
      entered (handleGenerateDescriptionFromImage read reply s)
      = Some GENERATING_DESCRIPTION
      /\ entered (handleCopyImageSubmit read reply s) = Some GENERATING_COPY_PROMPT)
  /\ (forall draft,
         editedEnhancedPromptText s = Some (JStr draft) ->
         refineSubmitDisabled draft = false ->
         entered (handleSubmitRefinedPrompt read reply s) = Some GENERATING_REFINEMENT).
Proof.
  unfold entered, basicSubmitDisabled, magicSubmitDisabled, styleSubmitDisabled,
    subjectActionsEnabled, refineSubmitDisabled.
  split; [|split; [|split; [|split]]].
  - intros H. unfold handleBasicPromptSubmit. rewrite H. crunch; reflexivity.
  - intros H. apply orb_false_iff in H as [Hidea Hdims].
    apply valid_dimensions_pass in Hdims.
    unfold handleMagicPromptSubmit. rewrite Hidea, Hdims. crunch; reflexivity.
  - intros H. apply orb_false_iff in H as [H Hdims].
    apply orb_false_iff in H as [Hidea Hstyle].
    apply valid_dimensions_pass in Hdims.
    unfold handleStyleInfluenceSubmit. rewrite Hdims.
    destruct (styleReferenceImageFile s); [|discriminate]. rewrite Hidea.
    crunch; reflexivity.
  - intros H. unfold handleGenerateDescriptionFromImage, handleCopyImageSubmit.
    destruct (subjectReferenceImagePreview s); [|discriminate].
    destruct (subjectReferenceImageFile s); [|discriminate].
    split; crunch; reflexivity.
  - intros draft Hdraft H. unfold handleSubmitRefinedPrompt. rewrite Hdraft, H.
    crunch; reflexivity.
Qed.

(** ** The stored files *)

(** What a commit can do to an image slot: keep it, empty it, or fill it
    with a checked file. *)
Lemma run_slots (e : Event) (s s' : App) (imageType : ImageType) :
  In s' (run e s) ->
  (slotFile imageType s' = slotFile imageType s
   /\ slotPreview imageType s' = slotPreview imageType s)
  \/ (slotFile imageType s' = None /\ slotPreview imageType s' = None)
  \/ (exists f, slotFile imageType s' = Some f /\ valid_file f).
Proof.
  destruct e; cbn [run]; intros H.
  all: try (in_commits; left; destruct imageType; split; reflexivity).
  - unfold handleImageUpload in H. destruct file as [file|]; [|destruct H].
    destruct (Js.mem (type file) ALLOWED_IMAGE_TYPES) eqn:Htype; cbn [negb] in H.
    + destruct (N.ltb_spec (MAX_IMAGE_SIZE_MB * 1024 * 1024) (size file)) as [Hbig|Hfits].
      * in_commits. destruct imageType, imageType0; cbn; auto.
      * in_commits; [left; destruct imageType, imageType0; split; reflexivity|].
        destruct imageType, imageType0; cbn; auto;
          right; right; exists file; (split; [reflexivity|]);
          (split; [now apply mem_In | exact Hfits]).
    + in_commits. destruct imageType, imageType0; cbn; auto.
  - in_commits. destruct imageType, imageType0; cbn; auto.
  - unfold handleGenerateDescriptionFromImage in H. split_handler;
      cbn [commits] in H; in_commits; left; destruct imageType; split; reflexivity.
  - unfold handleBasicPromptSubmit in H. split_handler;
      cbn [commits] in H; in_commits; left; destruct imageType; split; reflexivity.
  - unfold handleEnhancementSubmit in H. split_handler;
      cbn [commits] in H; in_commits; left; destruct imageType; split; reflexivity.
  - unfold handleMagicPromptSubmit in H. split_handler;
      cbn [commits] in H; in_commits; left; destruct imageType; split; reflexivity.
  - unfold handleCopyImageSubmit in H. split_handler;
      cbn [commits] in H; in_commits; left; destruct imageType; split; reflexivity.
  - unfold handleStyleInfluenceSubmit in H. split_handler;
      cbn [commits] in H; in_commits; left; destruct imageType; split; reflexivity.
  - unfold handleEditEnhancedPrompt in H. in_commits.
    destruct (enhancedResult s); left; destruct imageType; split; reflexivity.
  - unfold handleSubmitRefinedPrompt in H. split_handler;
      cbn [commits] in H; in_commits; left; destruct imageType; split; reflexivity.
  - in_commits. right; left. destruct imageType; split; reflexivity.
  - unfold copyToClipboard in H. split_handler; in_commits;
      left; destruct kind; try destruct index; destruct imageType; split; reflexivity.
Qed.

Lemma reachable_valid_slot (imageType : ImageType) (s : App) :
  reachable s -> valid_slot imageType s.
Proof.
  induction 1 as [API_KEY|s e s' _ IH Hin].
  - unfold valid_slot, mount. destruct API_KEY as [key|];
      [destruct (Js.truthy key && negb (String.eqb key "MISSING_API_KEY")
                 && (10 <? Js.utf16_length key)%nat)|];
      destruct imageType; reflexivity.
  - unfold valid_slot in *.
    destruct (run_slots e s s' imageType Hin) as [[-> ->]|[[-> ->]|(f & -> & Hf)]];
      [exact IH | reflexivity | exact Hf].
Qed.

Lemma attached_valid (parts : list Part) (image : option ReferenceImage) (m : string) :
  In m (attached_types (Some (PartsRequest (push_image_if parts image)))) ->
  In m (attached_types (Some (PartsRequest parts)))
  \/ exists im, image = Some im /\ m = mimeType im.
Proof.
  destruct image as [im|]; simpl; [|auto].
  unfold push_image. rewrite flat_map_app, in_app_iff. simpl.
  intros [H|[<-|[]]]; eauto.
Qed.

(** X5. Only checked files are ever stored, and only their types are ever
    sent: in every state the component passes through, each image slot is
    empty (file and preview) or holds a file of an allowed type and of at most
    5 MB, and whatever event comes next, every image attached to the request
    it sends is declared with one of the allowed types. *)
Theorem only_checked_images (s : App) :
  reachable s ->
  valid_slot subject s /\ valid_slot style s
  /\ forall e mime, In mime (attached_types (requested e s)) ->
                    In mime ALLOWED_IMAGE_TYPES.
Proof.
  intros Hreach.
  pose proof (reachable_valid_slot subject s Hreach) as Hsubject.
  pose proof (reachable_valid_slot style s Hreach) as Hstyle.
  split; [exact Hsubject|]. split; [exact Hstyle|].
  unfold valid_slot, slotFile, valid_file in Hsubject, Hstyle.
  remember ALLOWED_IMAGE_TYPES as allowed eqn:Hallowed. clear Hallowed.
  destruct (subjectReferenceImageFile s) as [subjectFile|] eqn:Es;
    destruct (styleReferenceImageFile s) as [styleFile|] eqn:Et.
  all: intros e mime; destruct e; cbn [requested attached_types]; try (intros []).
  all: unfold_handlers;
    unfold readSubjectImage, generateQuestions, generateEnhancedPrompt,
      generateImageDescription, generateMagicPrompt, generateCopyImagePrompt,
      generateStyleInfluencePrompt, refineEditedPrompt, generateEnhancedPrompt_parts,
      generateImageDescription_parts, generateMagicPrompt_parts,
      generateCopyImagePrompt_parts, generateStyleInfluencePrompt_parts,
      refineEditedPrompt_parts, push_image_if, push_image, toReferenceImage;
    rewrite ?Es, ?Et;
    repeat match goal with
           | outcome : ReadOutcome |- _ => destruct outcome
           end.
  all: crunch; intros H;
    repeat match goal with
           | H : _ \/ _ |- _ => destruct H as [<-|H]
           | H : False |- _ => destruct H
           end;
    tauto.
Qed.

Lemma only_checked_images_witness :
  reachable both_uploaded
  /\ slotFile subject both_uploaded = Some jpeg
  /\ slotFile style both_uploaded = Some png
  /\ valid_slot subject both_uploaded /\ valid_slot style both_uploaded.
Proof.
  assert (reachable both_uploaded) as H.
  { unfold both_uploaded. repeat apply reachable_step. exact reachable_sunset. }
  split; [exact H|]. split; [reflexivity|]. split; [reflexivity|].
  split.
  - exact (proj1 (only_checked_images both_uploaded H)).
  - exact (proj1 (proj2 (only_checked_images both_uploaded H))).
Defined.

(** ** More on answering *)

Lemma mem_pushed (x : string) (l : list string) : Js.mem x (l ++ [x]) = true.
Proof. apply mem_In, in_or_app. right. now left. Qed.

Lemma filter_out_spec (x y : string) (l : list string) :
  In y (filter (fun opt => negb (String.eqb opt x)) l) <-> In y l /\ y <> x.
Proof.
  rewrite filter_In, negb_true_iff, String.eqb_neq. tauto.
Qed.

(** X6. Ticking an option of the addressed question leaves it selected,
    unticking leaves it unselected, and neither changes whether any other
    option is selected: the checkbox, which shows
    [selectedOptions.includes(option)], follows the last click. *)
Theorem toggle_sets_membership (qa : QuestionAnswer) (questionId selected : string)
    (notes : option string) :
  id qa = Some (JStr questionId) ->
  In selected (selectedOptions (answerChange questionId notes (Some selected) (Some true) qa))
  /\ ~ In selected
         (selectedOptions (answerChange questionId notes (Some selected) (Some false) qa))
  /\ forall other checked,
       other <> selected ->
       (In other (selectedOptions
                    (answerChange questionId notes (Some selected) (Some checked) qa))
        <-> In other (selectedOptions qa)).
Proof.
  intros Hid. apply id_is_spec in Hid. unfold answerChange. rewrite Hid.
  cbn [selectedOptions]. split; [|split].
  - destruct (Js.mem selected (selectedOptions qa)) eqn:E; cbn [negb].
    + now apply mem_In.
    + apply in_or_app. right. now left.
  - rewrite filter_out_spec. tauto.
  - intros other [|] Hother.
    + destruct (Js.mem selected (selectedOptions qa)); cbn [negb]; [tauto|].
      rewrite in_app_iff. simpl. intuition congruence.
    + rewrite filter_out_spec. tauto.
Qed.

(** X7. Notes and ticks do not interfere: a call that only carries notes
    (no option, or an option without a checked flag) leaves the selected
    options as they are, and a call without notes leaves the notes as they
    are. *)
Theorem notes_and_ticks_independent (qa : QuestionAnswer) (questionId text : string)
    (selectedOption : option string) (checked : option bool) :
  selectedOptions (answerChange questionId (Some text) None checked qa)
  = selectedOptions qa
  /\ selectedOptions (answerChange questionId (Some text) selectedOption None qa)
     = selectedOptions qa
  /\ answer (answerChange questionId (Some text) selectedOption checked qa)
     = (if id_is qa questionId then text else answer qa)
  /\ answer (answerChange questionId None selectedOption checked qa) = answer qa.
Proof.
  unfold answerChange. destruct (id_is qa questionId); cbn; repeat split;
    destruct selectedOption; reflexivity.
Qed.

(** X8. An answer change is idempotent: repeating the same call changes
    nothing more. *)
Theorem answerChange_idempotent (qa : QuestionAnswer) (questionId : string)
    (notes selectedOption : option string) (checked : option bool) :
  answerChange questionId notes selectedOption checked
    (answerChange questionId notes selectedOption checked qa)
  = answerChange questionId notes selectedOption checked qa.
Proof.
  unfold answerChange at 1. rewrite answerChange_id_is.
  unfold answerChange. destruct (id_is qa questionId); [|reflexivity]. cbn.
  destruct notes, selectedOption as [selected|], checked as [[|]|]; cbn;
    try reflexivity.
  all: try (destruct (Js.mem selected (selectedOptions qa)) eqn:E; cbn;
            [rewrite E | rewrite mem_pushed]; reflexivity).
  all: f_equal; induction (selectedOptions qa) as [|y l IH]; cbn; [reflexivity|];
    destruct (String.eqb y selected) eqn:E; cbn; [exact IH|];
    rewrite E; cbn; now f_equal.
Qed.

Lemma answerChange_skip (questionId : string) (a o : option string) (c : option bool)
    (qa : QuestionAnswer) :
  id_is qa questionId = false -> answerChange questionId a o c qa = qa.
Proof. intros H. unfold answerChange. now rewrite H. Qed.

Lemma setQuestionAnswers_twice (qas qas' : list QuestionAnswer) (s : App) :
  setQuestionAnswers qas (setQuestionAnswers qas' s) = setQuestionAnswers qas s.
Proof. reflexivity. Qed.

(** X9. Answer changes addressed to different questions commute. *)
Theorem answer_changes_commute (s : App) (q1 q2 : string) (a1 a2 o1 o2 : option string)
    (c1 c2 : option bool) :
  q1 <> q2 ->
  handleAnswerChange q1 a1 o1 c1 (handleAnswerChange q2 a2 o2 c2 s)
  = handleAnswerChange q2 a2 o2 c2 (handleAnswerChange q1 a1 o1 c1 s).
Proof.
  intros Hq. unfold handleAnswerChange.
  cbn [questionAnswers setQuestionAnswers]. rewrite !setQuestionAnswers_twice.
  f_equal. rewrite !map_map. apply map_ext. intros qa.
  destruct (id_is qa q1) eqn:E1, (id_is qa q2) eqn:E2.
  - apply id_is_spec in E1, E2. congruence.
  - rewrite (answerChange_skip q2 a2 o2 c2 qa E2).
    rewrite (answerChange_skip q2 a2 o2 c2 (answerChange q1 a1 o1 c1 qa));
      [reflexivity|]. now rewrite answerChange_id_is.
  - rewrite (answerChange_skip q1 a1 o1 c1 qa E1).
    rewrite (answerChange_skip q1 a1 o1 c1 (answerChange q2 a2 o2 c2 qa));
      [reflexivity|]. now rewrite answerChange_id_is.
  - rewrite (answerChange_skip q2 a2 o2 c2 qa E2), (answerChange_skip q1 a1 o1 c1 qa E1).
    now rewrite (answerChange_skip q2 a2 o2 c2 qa E2).
Qed.

Lemma answer_changes_commute_witness :
  "q1" <> "q2"
  /\ handleAnswerChange "q1" None (Some "Akwarela") (Some true)
       (handleAnswerChange "q2" (Some "bez ludzi") (Some "Spokojny") (Some true) asking)
     = handleAnswerChange "q2" (Some "bez ludzi") (Some "Spokojny") (Some true)
         (handleAnswerChange "q1" None (Some "Akwarela") (Some true) asking)
  /\ map (fun qa => (id qa, answer qa, selectedOptions qa))
       (questionAnswers
          (handleAnswerChange "q1" None (Some "Akwarela") (Some true)
             (handleAnswerChange "q2" (Some "bez ludzi") (Some "Spokojny") (Some true)
                asking)))
     = (Some (JStr "q1"), "", ["Akwarela"])
         :: (Some (JStr "q2"), "bez ludzi", ["Spokojny"])
         :: repeat (Some (JStr "q3"), "", []) 9
  /\ map (fun qa => (id qa, answer qa, selectedOptions qa)) (questionAnswers asking)
     = (Some (JStr "q1"), "", [])
         :: (Some (JStr "q2"), "", [])
         :: repeat (Some (JStr "q3"), "", []) 9.
Proof.
  assert ("q1" <> "q2") as H by discriminate.
  split; [exact H|]. split; [|split; reflexivity].
  exact (answer_changes_commute asking "q1" "q2" None (Some "bez ludzi")
           (Some "Akwarela") (Some "Spokojny") (Some true) (Some true) H).
Defined.

Lemma toggle_sets_membership_witness :
  id answered_question = Some (JStr "q1")
  /\ In "Pop art"
       (selectedOptions
          (answerChange "q1" None (Some "Pop art") (Some true) answered_question)).
Proof.
  split; [reflexivity|].
  apply (proj1 (toggle_sets_membership answered_question "q1" "Pop art" None eq_refl)).
Defined.

(** ** Dimensions in the two builders *)

Lemma not_blank_not_empty (text : string) : blank text = false -> Js.truthy text = true.
Proof. destruct text; [discriminate | reflexivity]. Qed.

(** X10. For every state that passes the handlers' guard on custom
    dimensions, the magic-prompt builder and the style-influence builder, called
    the way the handlers call them, write the same dimension line; with
    "custom" selected that line quotes the width and height as they were
    typed, not as [parseInt] read them. *)
Theorem dimension_lines_agree (s : App) :
  customDimensionsRejected s = false ->
  outputAspectRatio s <> "" ->
  style_dimensionsText (Some (outputAspectRatio s)) (Some (currentOutputCustomWidth s))
    (Some (currentOutputCustomHeight s))
  = magic_dimensionsText (outputAspectRatio s) (currentOutputCustomWidth s)
      (currentOutputCustomHeight s)
  /\ (outputAspectRatio s = "custom" ->
      magic_dimensionsText (outputAspectRatio s) (currentOutputCustomWidth s)
        (currentOutputCustomHeight s)
      = "Dimensions: " ++ outputCustomWidth s ++ "x" ++ outputCustomHeight s ++ "px").
Proof.
  unfold customDimensionsRejected, style_dimensionsText, magic_dimensionsText,
    currentOutputCustomWidth, currentOutputCustomHeight, truthy_arg, arg_is, arg_text.
  intros Hguard Hratio.
  destruct (String.eqb_spec (outputAspectRatio s) "custom") as [E|E].
  - rewrite E in *. cbn [andb] in Hguard.
    apply orb_false_iff in Hguard as [Hguard _].
    apply orb_false_iff in Hguard as [Hguard _].
    apply orb_false_iff in Hguard as [Hw Hh].
    apply not_blank_not_empty in Hw, Hh. cbn. rewrite Hw, Hh. split; reflexivity.
  - split; [|congruence].
    destruct (outputAspectRatio s) as [|c ratio] eqn:Er; [congruence|].
    cbn [Js.truthy andb negb].
    destruct (String.eqb (String c ratio) "auto"); reflexivity.
Qed.

Lemma dimension_lines_agree_witness :
  customDimensionsRejected (custom "1024" "768" sunset) = false
  /\ outputAspectRatio (custom "1024" "768" sunset) <> ""
  /\ style_dimensionsText (Some "custom") (Some "1024") (Some "768")
     = magic_dimensionsText "custom" "1024" "768".
Proof.
  assert (outputAspectRatio (custom "1024" "768" sunset) <> "") as Hratio
    by discriminate.
  split; [reflexivity|]. split; [exact Hratio|].
  exact (proj1 (dimension_lines_agree (custom "1024" "768" sunset) eq_refl Hratio)).
Defined.

(** ** The payload of a data URL *)

Lemma split_on_comma_free (text : string) :
  comma_free text -> Js.split_on (ascii_of_nat 44) text = [text].
Proof.
  unfold comma_free. induction text as [|a text IH]; [reflexivity|].
  cbn [list_ascii_of_string Js.split_on]. intros H.
  destruct (Ascii.eqb_spec a (ascii_of_nat 44)) as [->|_].
  - exfalso. apply H. now left.
  - rewrite IH; [reflexivity|]. intros Hin. apply H. now right.
Qed.

Lemma split_on_first_comma (header rest : string) :
  comma_free header ->
  Js.split_on (ascii_of_nat 44) (header ++ "," ++ rest)
  = header :: Js.split_on (ascii_of_nat 44) rest.
Proof.
  unfold comma_free. induction header as [|a header IH]; [reflexivity|].
  cbn [list_ascii_of_string]. intros H.
  change (String a header ++ "," ++ rest) with (String a (header ++ "," ++ rest)).
  cbn [Js.split_on].
  destruct (Ascii.eqb_spec a (ascii_of_nat 44)) as [->|_].
  - exfalso. apply H. now left.
  - rewrite IH; [reflexivity|]. intros Hin. apply H. now right.
Qed.

(** X11. The image handed to the service carries the file's declared type
    and, as its data, what stands between the first and the second comma of
    the data URL: the whole payload of a URL with one comma, a truncated one
    if the payload held a comma, and [undefined] if the URL had none. *)
Theorem data_url_payload (file : File) (header payload : string) :
  comma_free header ->
  comma_free payload ->
  toReferenceImage file (header ++ "," ++ payload)
  = {| base64 := Some payload; mimeType := type file |}
  /\ (forall tail,
         toReferenceImage file (header ++ "," ++ payload ++ "," ++ tail)
         = {| base64 := Some payload; mimeType := type file |})
  /\ toReferenceImage file header = {| base64 := None; mimeType := type file |}.
Proof.
  intros Hheader Hpayload. unfold toReferenceImage. repeat split.
  - now rewrite split_on_first_comma, split_on_comma_free.
  - intros tail. now rewrite !split_on_first_comma.
  - now rewrite split_on_comma_free.
Qed.

Lemma data_url_payload_witness :
  comma_free "data:image/png;base64"
  /\ comma_free "iVBORw0KGgo="
  /\ toReferenceImage png "data:image/png;base64,iVBORw0KGgo="
     = {| base64 := Some "iVBORw0KGgo="; mimeType := "image/png" |}.
Proof.
  assert (comma_free "data:image/png;base64") as Hheader.
  { unfold comma_free. simpl. intuition discriminate. }
  assert (comma_free "iVBORw0KGgo=") as Hpayload.
  { unfold comma_free. simpl. intuition discriminate. }
  split; [exact Hheader|]. split; [exact Hpayload|].
  exact (proj1 (data_url_payload png "data:image/png;base64" "iVBORw0KGgo="
                  Hheader Hpayload)).
Defined.

(** ** Editing the result *)

(** X12. Editing works on a draft: starting to edit copies the result's
    prompt into the draft and turns editing on, and cancelling, whatever was
    typed meanwhile, turns editing off and empties the draft.  The stored
    result, the state and everything else but the message are as before. *)
Theorem edit_then_cancel (s : App) (result : EnhancedPromptResult) (typed : string) :
  enhancedResult s = Some result ->
  editedEnhancedPromptText (handleEditEnhancedPrompt s) = enhancedPrompt result
  /\ isEditingEnhancedPrompt (handleEditEnhancedPrompt s) = true
  /\ handleCancelEditEnhancedPrompt
       (handleEditEnhancedPrompt s |> setEditedEnhancedPromptText (Some (JStr typed)))
     = s |> setError None
         |> setIsEditingEnhancedPrompt false
         |> setEditedEnhancedPromptText (Some (JStr "")).
Proof.
  intros H. unfold handleEditEnhancedPrompt. rewrite H. repeat split.
Qed.

Lemma edit_then_cancel_witness :
  enhancedResult (showing absent_fields) = Some absent_fields
  /\ handleCancelEditEnhancedPrompt
       (handleEditEnhancedPrompt (showing absent_fields)
          |> setEditedEnhancedPromptText (Some (JStr "a red sunset")))
     = showing absent_fields.
Proof.
  split; [reflexivity|].
  exact (proj2 (proj2 (edit_then_cancel (showing absent_fields) absent_fields
                         "a red sunset" eq_refl))).
Defined.

(** X13. A result whose [enhancedPrompt] is not a string cannot be refined:
    once editing has copied it into the draft, the submit handler stops at
    [editedEnhancedPromptText.trim()], commits no state and sends nothing. *)
Theorem refine_needs_string_draft (read : ReadOutcome) (reply : ModelReply) (s : App)
    (result : EnhancedPromptResult) :
  enhancedResult s = Some result ->
  (forall text, enhancedPrompt result <> Some (JStr text)) ->
  commits (handleSubmitRefinedPrompt read reply (handleEditEnhancedPrompt s)) = []
  /\ sent (handleSubmitRefinedPrompt read reply (handleEditEnhancedPrompt s)) = None.
Proof.
  intros Hresult Htext. unfold handleEditEnhancedPrompt, handleSubmitRefinedPrompt.
  rewrite Hresult. cbn [editedEnhancedPromptText setError setIsEditingEnhancedPrompt
                         setEditedEnhancedPromptText].
  destruct (enhancedPrompt result) as [[| | |text| |]|]; try (split; reflexivity).
  now contradiction (Htext text).
Qed.

Lemma refine_needs_string_draft_witness :
  enhancedResult (showing absent_fields) = Some absent_fields
  /\ (forall text, enhancedPrompt absent_fields <> Some (JStr text))
  /\ commits (handleSubmitRefinedPrompt ReadError CallThrows
                (handleEditEnhancedPrompt (showing absent_fields))) = [].
Proof.
  assert (forall text, enhancedPrompt absent_fields <> Some (JStr text)) as H
    by (intros text; discriminate).
  split; [reflexivity|]. split; [exact H|].
  exact (proj1 (refine_needs_string_draft ReadError CallThrows (showing absent_fields)
                  absent_fields eq_refl H)).
Defined.

(** ** Uploading and clearing *)

(** X14. An upload, accepted or refused, and a clearing touch one slot
    only: the other slot, the idea, the questions and the result are as
    before in every state committed. *)
Theorem upload_touches_one_slot (file : option File) (imageType : ImageType)
    (result : option string) (s : App) :
  Forall
    (fun c =>
       slotFile (other_slot imageType) c = slotFile (other_slot imageType) s
       /\ slotPreview (other_slot imageType) c = slotPreview (other_slot imageType) s
       /\ basicPrompt c = basicPrompt s
       /\ questionAnswers c = questionAnswers s
       /\ enhancedResult c = enhancedResult s)
    (clearReferenceImage imageType s :: handleImageUpload file imageType result s).
Proof.
  unfold handleImageUpload, clearReferenceImage.
  destruct file as [file|], imageType; crunch; repeat constructor.
Qed.

(** X15. Clearing a slot after any upload into it, accepted or refused,
    gives the state that clearing alone would have given: the file, the
    preview and the message of the upload are gone. *)
Theorem clear_undoes_upload (file : option File) (imageType : ImageType)
    (result : option string) (s : App) :
  clearReferenceImage imageType (last (handleImageUpload file imageType result s) s)
  = clearReferenceImage imageType s.
Proof.
  unfold handleImageUpload, clearReferenceImage.
  destruct file as [file|], imageType; crunch; reflexivity.
Qed.

(** ** The description flow *)

(** X16. The description flow does not parse the reply: whatever text the
    model returns becomes the basic idea as it is, the component is back in
    [INITIAL] without a message, and the request held the instruction
    followed by the subject image. *)
Theorem description_becomes_idea (s : App) (file : File) (url text : string)
    (parsed : option json) :
  subjectReferenceImageFile s = Some file ->
  final s (handleGenerateDescriptionFromImage (ReadResult url) (ReplyText text parsed) s)
  = s |> setBasicPrompt text |> setAppState INITIAL |> setError None
  /\ sent (handleGenerateDescriptionFromImage (ReadResult url) (ReplyText text parsed) s)
     = Some (PartsRequest
               (ordered_payload generateImageDescription_prompt None
                  (Some (toReferenceImage file url))))
  /\ basicSubmitDisabled
       (final s (handleGenerateDescriptionFromImage (ReadResult url)
                   (ReplyText text parsed) s))
     = blank text.
Proof.
  intros H. unfold handleGenerateDescriptionFromImage, final. rewrite H.
  repeat split.
Qed.

Lemma description_becomes_idea_witness :
  subjectReferenceImageFile both_uploaded = Some jpeg
  /\ basicPrompt
       (final both_uploaded
          (handleGenerateDescriptionFromImage (ReadResult "data:image/jpeg;base64,/9j/4AAQ")
             (ReplyText "A cat on a red sofa." None) both_uploaded))
     = "A cat on a red sofa.".
Proof.
  split; [reflexivity|].
  exact (f_equal basicPrompt
           (proj1 (description_becomes_idea both_uploaded jpeg
                     "data:image/jpeg;base64,/9j/4AAQ" "A cat on a red sofa." None
                     eq_refl))).
Defined.

(** ** The enhancement flow *)

Lemma map_throwing_Some_iff {A B : Type} (f : A -> option B) (l : list A) :
  Js.map_throwing f l <> None <-> Forall (fun a => f a <> None) l.
Proof.
  induction l as [|a l IH]; simpl.
  - split; [constructor | discriminate].
  - destruct (f a) as [b|] eqn:Ea.
    + destruct (Js.map_throwing f l) as [bs|].
      * split; [|discriminate]. intros _. constructor; [congruence | now apply IH].
      * split; [congruence|]. intros H. inversion H; subst. now apply IH.
    + split; [congruence|]. intros H. inversion H; subst. congruence.
Qed.

(** X17. The enhancement flow has no guard: it always enters
    [GENERATING_ENHANCEMENT], also with an empty idea and no questions, and it
    sends its request exactly when the subject image, if there is one, could
    be read and every question's text can be written into the instruction. *)
Theorem enhancement_is_unguarded (read : ReadOutcome) (reply : ModelReply) (s : App) :
  entered (handleEnhancementSubmit read reply s) = Some GENERATING_ENHANCEMENT
  /\ (sent (handleEnhancementSubmit read reply s) <> None <->
      readSubjectImage read s <> None
      /\ Forall (fun qa => text_of (questionText qa) <> None) (questionAnswers s)).
Proof.
  unfold entered, handleEnhancementSubmit, generateEnhancedPrompt,
    generateEnhancedPrompt_prompt.
  destruct (readSubjectImage read s) as [image|].
  - pose proof (map_throwing_Some_iff enhanced_answer_text (questionAnswers s)) as H.
    assert (Forall (fun qa => enhanced_answer_text qa <> None) (questionAnswers s)
            <-> Forall (fun qa => text_of (questionText qa) <> None) (questionAnswers s))
      as Htext.
    { split; apply Forall_impl; intros qa; unfold enhanced_answer_text;
        destruct (text_of (questionText qa)); congruence. }
    rewrite <- Htext, <- H.
    destruct (Js.map_throwing enhanced_answer_text (questionAnswers s)).
    + cbn [settled request]. destruct (try_parsed _ reply result_of); cbn;
        (split; [reflexivity|]); split; intros; try split; congruence.
    + cbn. split; [reflexivity|]. split; [congruence | intros [_ H']; congruence].
  - cbn. split; [reflexivity|]. split; [congruence | intros [H' _]; congruence].
Qed.

(** ** Successful calls *)

Lemma try_parsed_usable (message text : string) (data : json) :
  data <> JNull ->
  try_parsed message (ReplyText text (Some data)) result_of
  = Resolved (unchecked_result data).
Proof. intros H. simpl. now rewrite result_of_unchecked. Qed.

Ltac service_succeeds H :=
  unfold_handlers; unfold final, generateEnhancedPrompt,
    generateMagicPrompt, generateCopyImagePrompt, generateStyleInfluencePrompt,
    refineEditedPrompt;
  rewrite ?(try_parsed_usable _ _ _ H);
  crunch; intros; cbn in *;
  repeat match goal with
         | E : Resolved _ = Resolved _ |- _ => injection E as <-
         end;
  try congruence; repeat split; auto.

(** X18. When the reply parses to anything but [null], each result-shaped
    flow that sent its request ends in [SHOWING_RESULTS] without a message,
    holding the result read from that reply; the refinement flow also leaves
    editing. *)
Theorem successful_call_shows_result (read readStyle : ReadOutcome) (text : string)
    (data : json) (s : App) :
  data <> JNull ->
  let reply := ReplyText text (Some data) in
  let shown (s' : App) :=
    appState s' = SHOWING_RESULTS
    /\ enhancedResult s' = Some (unchecked_result data)
    /\ error s' = None in
  (sent (handleEnhancementSubmit read reply s) <> None ->
   shown (final s (handleEnhancementSubmit read reply s)))
  /\ (sent (handleMagicPromptSubmit read reply s) <> None ->
      shown (final s (handleMagicPromptSubmit read reply s)))
  /\ (sent (handleCopyImageSubmit read reply s) <> None ->
      shown (final s (handleCopyImageSubmit read reply s)))
  /\ (sent (handleStyleInfluenceSubmit read readStyle reply s) <> None ->
      shown (final s (handleStyleInfluenceSubmit read readStyle reply s)))
  /\ (sent (handleSubmitRefinedPrompt read reply s) <> None ->
      shown (final s (handleSubmitRefinedPrompt read reply s))
      /\ isEditingEnhancedPrompt (final s (handleSubmitRefinedPrompt read reply s))
         = false).
Proof.
  intros H. cbv zeta.
  split; [service_succeeds H|]. split; [service_succeeds H|].
  split; [service_succeeds H|]. split; [service_succeeds H|]. service_succeeds H.
Qed.

Lemma successful_call_shows_result_witness :
  JObj [("enhancedPrompt", JStr "a red sunset")] <> JNull
  /\ enhancedResult
       (final sunset
          (handleMagicPromptSubmit ReadError
             (reply_of (JObj [("enhancedPrompt", JStr "a red sunset")])) sunset))
     = Some {| enhancedPrompt := Some (JStr "a red sunset");
               negativePrompt := undefined;
               suggestions := empty_array;
               outputTypeUsed := RASTER_PROMPT |}.
Proof.
  assert (JObj [("enhancedPrompt", JStr "a red sunset")] <> JNull) as H by discriminate.
  split; [exact H|].
  refine (proj1 (proj2 (proj1 (proj2
            (successful_call_shows_result ReadError ReadError
               (stringify (JObj [("enhancedPrompt", JStr "a red sunset")]))
               (JObj [("enhancedPrompt", JStr "a red sunset")]) sunset H)) _))).
  discriminate.
Defined.

Lemma handleStyleInfluenceSubmit_sends_witness :
  subjectReferenceImageFile both_uploaded = Some jpeg
  /\ styleReferenceImageFile both_uploaded = Some png
  /\ customDimensionsRejected both_uploaded = false
  /\ attached_types
       (sent (handleStyleInfluenceSubmit
                (ReadResult "data:image/jpeg;base64,/9j/4AAQ")
                (ReadResult "data:image/png;base64,iVBORw0KGgo=") CallThrows
                both_uploaded))
     = ["image/png"; "image/jpeg"].
Proof.
  split; [reflexivity|]. split; [reflexivity|]. split; [reflexivity|].
  rewrite (handleStyleInfluenceSubmit_sends both_uploaded jpeg png
             "data:image/jpeg;base64,/9j/4AAQ" "data:image/png;base64,iVBORw0KGgo="
             CallThrows eq_refl eq_refl eq_refl).
  reflexivity.
Defined.
